(** * Phone chatbot: call statistics and the silence watcher

    A shallow embedding of [examples/phone-chatbot/call_stats.py] and
    [examples/phone-chatbot/silence_watcher.py].

    Conventions of the embedding.
    - A clock reading ([time.time()]) is a rational number of seconds; every
      call of [time.time()] in the source is an explicit argument of the
      function that embeds the enclosing code.
    - Python truthiness of an optional timestamp ([None] and [0.0] are false)
      is written out as [truthy].
    - Counters are Python integers, hence [Z].
    - Everything the watcher does to its collaborators (the logger's summary
      line, the TTS sink, the session manager, the pipeline) is recorded as a
      list of [Effect]s, in program order.  Diagnostic log lines other than
      the call summary are not recorded.
    - The coroutine [_monitor_silence] is cut at its [await]s: between two
      suspension points the code runs without interleaving (asyncio is
      cooperative), so every segment is one function. *)

From Stdlib Require Import ZArith QArith Qround Bool List Lia.
From Stdlib Require Import Ascii String DecimalString DecimalPos DecimalZ.
Import ListNotations.

Open Scope Z_scope.

(** ** Python primitives used by the two files *)

Module Py.

(** [str(n)] and [f"{n}"] for an integer: decimal digits, a leading minus
    sign for negative numbers. *)
Definition str_int (n : Z) : string :=
  NilZero.string_of_int (Z.to_int n).

(** [int(x)] on a number: truncation toward zero. *)
Definition int_of (x : Q) : Z :=
  Z.quot (Qnum x) (Zpos (Qden x)).

(** [divmod(a, b)]: floor division and the remainder with the sign of the
    divisor, which is what [Z.div] and [Z.modulo] are. *)
Definition divmod (a b : Z) : Z * Z := (a / b, a mod b).

Fixpoint zeros (k : nat) : string :=
  match k with
  | O => EmptyString
  | S k' => String "0" (zeros k')
  end.

(** [f"{n:0Wd}"]: sign-aware zero padding to a minimum width of [W]
    characters (the sign counts in the width). *)
Definition format_0d (width : nat) (n : Z) : string :=
  if n <? 0
  then
    let digits := str_int (- n) in
    String "-" (zeros (width - 1 - String.length digits) ++ digits)
  else
    let digits := str_int n in
    (zeros (width - String.length digits) ++ digits)%string.

(** ["sep".join(parts)] *)
Fixpoint join (sep : string) (parts : list string) : string :=
  match parts with
  | [] => EmptyString
  | [p] => p
  | p :: rest => (p ++ sep ++ join sep rest)%string
  end.

(** Truthiness of an optional float: [None] and zero are false. *)
Definition truthy (t : option Q) : bool :=
  match t with
  | None => false
  | Some x => negb (Qeq_bool x 0)
  end.

(** [a > b] on numbers. *)
Definition gt (a b : Q) : bool := negb (Qle_bool a b).

Definition newline : string := String (ascii_of_nat 10) EmptyString.

End Py.

(** ** call_stats.py *)

Record CallStats : Type := mkCallStats {
  call_start_time : Q;
  call_end_time : option Q;
  silence_events : Z;
  user_speech_events : Z;
  bot_speech_events : Z;
  prompts_sent : Z
}.

Module CallStatsOps.

(** [CallStats.__init__]; [now] is the reading of [time.time()]. *)
Definition __init__ (now : Q) : CallStats :=
  {| call_start_time := now;
     call_end_time := None;
     silence_events := 0;
     user_speech_events := 0;
     bot_speech_events := 0;
     prompts_sent := 0 |}.

(** [duration_seconds]: the end time when it is truthy, the clock
    otherwise, minus the start time. *)
Definition duration_seconds (s : CallStats) (now : Q) : Q :=
  let end_time :=
    match call_end_time s with
    | Some e => if Py.truthy (Some e) then e else now
    | None => now
    end in
  (end_time - call_start_time s)%Q.

(** [format_duration] *)
Definition format_duration (s : CallStats) (now : Q) : string :=
  let seconds := Py.int_of (duration_seconds s now) in
  let '(minutes, seconds) := Py.divmod seconds 60 in
  (Py.str_int minutes ++ ":" ++ Py.format_0d 2 seconds)%string.

(** [generate_summary] *)
Definition generate_summary (s : CallStats) (now : Q) : string :=
  let duration := format_duration s now in
  let summary :=
    [ "=== CALL SUMMARY ===";
      "Duration: " ++ duration;
      "Silence events: " ++ Py.str_int (silence_events s);
      "Prompts sent: " ++ Py.str_int (prompts_sent s);
      "User speech events: " ++ Py.str_int (user_speech_events s);
      "Bot speech events: " ++ Py.str_int (bot_speech_events s) ]%string in
  Py.join Py.newline summary.

End CallStatsOps.

(** ** silence_watcher.py *)

Inductive FrameDirection : Type := DOWNSTREAM | UPSTREAM.

(** The frame classes the watcher names, and any other frame of the
    pipeline (told apart by a tag). *)
Inductive Frame : Type :=
| BotStoppedSpeakingFrame
| UserStartedSpeakingFrame
| EndTaskFrame
| TextFrame (text : string)
| OtherFrame (tag : nat).

(** What the watcher does to its collaborators. *)
Inductive Effect : Type :=
| LoggerInfoSummary (summary : string)             (* logger.info(summary) *)
| TtsProcessFrame (f : Frame) (d : FrameDirection) (* self.tts.process_frame *)
| SetCallTerminated       (* session_manager.call_flow_state.set_call_terminated *)
| PushFrame (f : Frame) (d : FrameDirection).      (* self.push_frame *)

(** Where the task running [_monitor_silence] is suspended. *)
Inductive LoopTask : Type :=
| Created      (* create_task was called, the coroutine has not run yet *)
| AtSleep1     (* line 47: await asyncio.sleep(1) *)
| AtSleep2     (* line 66: await asyncio.sleep(2), the pacing delay *)
| AtTts        (* line 67: await self.tts.process_frame(...) *)
| AtEndTask    (* line 77, inside terminate_call at line 95: await push_frame *)
| Finished     (* the while loop has ended *)
| Cancelled.   (* cancelled by cleanup *)

Record SilenceWatcher : Type := mkSilenceWatcher {
  prompt_text : string;
  threshold_secs : Q;
  max_prompts : Z;
  awaiting_response : bool;
  last_bot_spoke_time : option Q;
  unanswered_count : Z;
  monitoring_active : bool;
  stats : CallStats;
  loop_task : LoopTask
}.

Module Upd.

Definition set_call_end_time (v : option Q) (s : CallStats) : CallStats :=
  mkCallStats (call_start_time s) v (silence_events s)
              (user_speech_events s) (bot_speech_events s) (prompts_sent s).

Definition set_silence_events (v : Z) (s : CallStats) : CallStats :=
  mkCallStats (call_start_time s) (call_end_time s) v
              (user_speech_events s) (bot_speech_events s) (prompts_sent s).

Definition set_user_speech_events (v : Z) (s : CallStats) : CallStats :=
  mkCallStats (call_start_time s) (call_end_time s) (silence_events s)
              v (bot_speech_events s) (prompts_sent s).

Definition set_bot_speech_events (v : Z) (s : CallStats) : CallStats :=
  mkCallStats (call_start_time s) (call_end_time s) (silence_events s)
              (user_speech_events s) v (prompts_sent s).

Definition set_prompts_sent (v : Z) (s : CallStats) : CallStats :=
  mkCallStats (call_start_time s) (call_end_time s) (silence_events s)
              (user_speech_events s) (bot_speech_events s) v.

Definition set_awaiting_response (v : bool) (w : SilenceWatcher) :=
  mkSilenceWatcher (prompt_text w) (threshold_secs w) (max_prompts w)
    v (last_bot_spoke_time w) (unanswered_count w) (monitoring_active w)
    (stats w) (loop_task w).

Definition set_last_bot_spoke_time (v : option Q) (w : SilenceWatcher) :=
  mkSilenceWatcher (prompt_text w) (threshold_secs w) (max_prompts w)
    (awaiting_response w) v (unanswered_count w) (monitoring_active w)
    (stats w) (loop_task w).

Definition set_unanswered_count (v : Z) (w : SilenceWatcher) :=
  mkSilenceWatcher (prompt_text w) (threshold_secs w) (max_prompts w)
    (awaiting_response w) (last_bot_spoke_time w) v (monitoring_active w)
    (stats w) (loop_task w).

Definition set_monitoring_active (v : bool) (w : SilenceWatcher) :=
  mkSilenceWatcher (prompt_text w) (threshold_secs w) (max_prompts w)
    (awaiting_response w) (last_bot_spoke_time w) (unanswered_count w) v
    (stats w) (loop_task w).

Definition set_stats (v : CallStats) (w : SilenceWatcher) :=
  mkSilenceWatcher (prompt_text w) (threshold_secs w) (max_prompts w)
    (awaiting_response w) (last_bot_spoke_time w) (unanswered_count w)
    (monitoring_active w) v (loop_task w).

Definition set_loop_task (v : LoopTask) (w : SilenceWatcher) :=
  mkSilenceWatcher (prompt_text w) (threshold_secs w) (max_prompts w)
    (awaiting_response w) (last_bot_spoke_time w) (unanswered_count w)
    (monitoring_active w) (stats w) v.

End Upd.

Module Watcher.

Import Upd CallStatsOps.

(** [SilenceWatcher.__init__]; [now] is the clock read by [CallStats()]. *)
Definition __init__ (prompt : string) (threshold : Q) (maxp : Z) (now : Q)
  : SilenceWatcher :=
  {| prompt_text := prompt;
     threshold_secs := threshold;
     max_prompts := maxp;
     awaiting_response := false;
     last_bot_spoke_time := None;
     unanswered_count := 0;
     monitoring_active := true;
     stats := CallStatsOps.__init__ now;
     loop_task := Created |}.

(** [terminate_call] (lines 79-95).  [now] is the clock stored as the end
    time; [later] is the clock [duration_seconds] falls back to when the
    stored end time is not truthy. *)
Definition terminate_call (w : SilenceWatcher) (now later : Q)
  : SilenceWatcher * list Effect :=
  let st := set_call_end_time (Some now) (stats w) in
  let summary := generate_summary st later in
  let w1 := set_stats st w in
  let w2 := set_monitoring_active false w1 in
  (w2, [ LoggerInfoSummary summary;
         SetCallTerminated;
         PushFrame EndTaskFrame UPSTREAM ]).

(** [process_frame] (lines 97-113).  The base class's [process_frame] does
    not touch the watcher's fields.  [now] is read for a
    [BotStoppedSpeakingFrame] only. *)
Definition process_frame (w : SilenceWatcher) (frame : Frame)
           (direction : FrameDirection) (now : Q)
  : SilenceWatcher * list Effect :=
  let w' :=
    match frame with
    | BotStoppedSpeakingFrame =>
        let w1 := set_awaiting_response true w in
        let w2 := set_last_bot_spoke_time (Some now) w1 in
        set_stats (set_bot_speech_events
                     (bot_speech_events (stats w2) + 1) (stats w2)) w2
    | UserStartedSpeakingFrame =>
        let w1 := set_awaiting_response false w in
        let w2 := set_unanswered_count 0 w1 in
        set_stats (set_user_speech_events
                     (user_speech_events (stats w2) + 1) (stats w2)) w2
    | _ => w
    end in
  (w', [PushFrame frame direction]).

(** [cleanup] (lines 115-130).  Cancelling the loop task and awaiting it
    leaves the task cancelled, unless it was done already. *)
Definition cleanup (w : SilenceWatcher) (now later : Q)
  : SilenceWatcher * list Effect :=
  let '(w1, out) :=
    if negb (Py.truthy (call_end_time (stats w)))
    then
      let st := set_call_end_time (Some now) (stats w) in
      (set_stats st w, [LoggerInfoSummary (generate_summary st later)])
    else (w, []) in
  let w2 := set_monitoring_active false w1 in
  let w3 :=
    match loop_task w2 with
    | Finished | Cancelled => w2
    | _ => set_loop_task Cancelled w2
    end in
  (w3, out).

(** *** [_monitor_silence], segment by segment *)

(** Line 46: the loop condition, evaluated when the task first runs and
    after every iteration. *)
Definition loop_head (w : SilenceWatcher) : SilenceWatcher :=
  if monitoring_active w
  then set_loop_task AtSleep1 w
  else set_loop_task Finished w.

(** Lines 49-66: from the end of the one-second sleep to the pacing
    delay, or to the loop condition when no silence is detected. *)
Definition check_silence (w : SilenceWatcher) (now : Q) : SilenceWatcher :=
  if awaiting_response w && Py.truthy (last_bot_spoke_time w)
  then
    match last_bot_spoke_time w with
    | Some last =>
        let elapsed := (now - last)%Q in
        if Py.gt elapsed (threshold_secs w)
        then
          let w1 := set_awaiting_response false w in
          let w2 := set_unanswered_count (unanswered_count w1 + 1) w1 in
          let w3 := set_stats (set_silence_events
                       (silence_events (stats w2) + 1) (stats w2)) w2 in
          let w4 := set_stats (set_prompts_sent
                       (prompts_sent (stats w3) + 1) (stats w3)) w3 in
          set_loop_task AtSleep2 w4
        else loop_head w
    | None => loop_head w
    end
  else loop_head w.

(** Line 67: the pacing delay is over, the text frame goes to the TTS. *)
Definition dispatch_prompt (w : SilenceWatcher)
  : SilenceWatcher * list Effect :=
  (set_loop_task AtTts w,
   [TtsProcessFrame (TextFrame (prompt_text w)) DOWNSTREAM]).

(** Lines 71-77: the TTS call has returned; re-arm, then end the call
    when the maximum is reached. *)
Definition rearm (w : SilenceWatcher) (now now_end later : Q)
  : SilenceWatcher * list Effect :=
  let w1 := set_last_bot_spoke_time (Some now) w in
  let w2 := set_awaiting_response true w1 in
  if unanswered_count w2 >=? max_prompts w2
  then
    let '(w3, out) := terminate_call w2 now_end later in
    (set_loop_task AtEndTask w3, out)
  else (loop_head w2, []).

(** The loop task resumes from the [await] it is suspended at and runs to
    its next [await]. *)
Definition _monitor_silence (w : SilenceWatcher) (now now_end later : Q)
  : SilenceWatcher * list Effect :=
  match loop_task w with
  | Created => (loop_head w, [])
  | AtSleep1 => (check_silence w now, [])
  | AtSleep2 => dispatch_prompt w
  | AtTts => rearm w now now_end later
  | AtEndTask => (loop_head w, [])
  | Finished | Cancelled => (w, [])
  end.

(** One periodic tick run without anything else interleaved: the check
    at [now] and, when it detects silence, the prompt action that follows
    ([now_rearm], [now_end], [later] are the later clock readings). *)
Definition tick (w : SilenceWatcher) (now now_rearm now_end later : Q)
  : SilenceWatcher * list Effect :=
  let w1 := check_silence w now in
  match loop_task w1 with
  | AtSleep2 =>
      let '(w2, out2) := dispatch_prompt w1 in
      let '(w3, out3) := rearm w2 now_rearm now_end later in
      (w3, out2 ++ out3)
  | _ => (w1, [])
  end.

(** *** Interleavings *)

Inductive Event : Type :=
| EvFrame (f : Frame) (d : FrameDirection) (now : Q)
| EvMonitor (now now_end later : Q)
| EvTerminate (now later : Q)
| EvCleanup (now later : Q).

Definition step (w : SilenceWatcher) (e : Event)
  : SilenceWatcher * list Effect :=
  match e with
  | EvFrame f d now => process_frame w f d now
  | EvMonitor now now_end later => _monitor_silence w now now_end later
  | EvTerminate now later => terminate_call w now later
  | EvCleanup now later => cleanup w now later
  end.

Fixpoint run (w : SilenceWatcher) (es : list Event)
  : SilenceWatcher * list Effect :=
  match es with
  | [] => (w, [])
  | e :: es' =>
      let '(w1, out1) := step w e in
      let '(w2, out2) := run w1 es' in
      (w2, out1 ++ out2)
  end.

Definition is_summary (e : Effect) : bool :=
  match e with LoggerInfoSummary _ => true | _ => false end.

Definition summaries_emitted (out : list Effect) : nat :=
  List.length (filter is_summary out).

Definition is_bot_stopped (e : Event) : bool :=
  match e with EvFrame BotStoppedSpeakingFrame _ _ => true | _ => false end.

Definition is_user_started (e : Event) : bool :=
  match e with EvFrame UserStartedSpeakingFrame _ _ => true | _ => false end.

End Watcher.

(** ** Vocabulary of the statements *)

Section Vocabulary.

Import Upd CallStatsOps Watcher.

Definition bump (b : bool) : Z := if b then 1 else 0.

(** Number of events of a trace that satisfy [p]. *)
Definition count_events (p : Event -> bool) (es : list Event) : Z :=
  Z.of_nat (List.length (filter p es)).

(** A call of [process_frame] as an event, and the effect that forwards
    its frame. *)
Definition frame_event (x : Frame * FrameDirection * Q) : Event :=
  let '(f, d, now) := x in EvFrame f d now.

Definition forwarded (x : Frame * FrameDirection * Q) : Effect :=
  let '(f, d, _) := x in PushFrame f d.

Definition is_prompt (e : Effect) : bool :=
  match e with TtsProcessFrame _ _ => true | _ => false end.

(** What the prompt action of a tick leaves behind: [r] is the result of
    the tick run from [w], [now_rearm] the clock read when the timer is
    re-armed. *)
Definition prompt_action (w : SilenceWatcher)
           (r : SilenceWatcher * list Effect) (now_rearm : Q) : Prop :=
  unanswered_count (fst r) = unanswered_count w + 1 /\
  silence_events (stats (fst r)) = silence_events (stats w) + 1 /\
  prompts_sent (stats (fst r)) = prompts_sent (stats w) + 1 /\
  (exists rest,
      snd r = TtsProcessFrame (TextFrame (prompt_text w)) DOWNSTREAM :: rest
      /\ filter is_prompt rest = []) /\
  last_bot_spoke_time (fst r) = Some now_rearm /\
  awaiting_response (fst r) = true.

(** The termination sequence has run: [r] is the resulting state and the
    effects; the sequence is the tail of the effects. *)
Definition termination_ran (r : SilenceWatcher * list Effect)
           (now_end later : Q) : Prop :=
  call_end_time (stats (fst r)) = Some now_end /\
  monitoring_active (fst r) = false /\
  exists before,
    filter is_summary before = [] /\
    snd r = before ++
            [ LoggerInfoSummary (generate_summary (stats (fst r)) later);
              SetCallTerminated;
              PushFrame EndTaskFrame UPSTREAM ].

(** A sequence of ticks, each with its own clock readings. *)
Fixpoint ticks (w : SilenceWatcher) (ts : list (Q * Q * Q * Q))
  : SilenceWatcher * list Effect :=
  match ts with
  | [] => (w, [])
  | (now, now_rearm, now_end, later) :: ts' =>
      let '(w1, out1) := tick w now now_rearm now_end later in
      let '(w2, out2) := ticks w1 ts' in
      (w2, out1 ++ out2)
  end.

(** A watcher of the default configuration created at time 1000, and the
    same after the bot stopped speaking at that time. *)
Definition fresh : SilenceWatcher :=
  __init__ "Are you still there?" 10 3 1000.

Definition armed : SilenceWatcher :=
  fst (process_frame fresh BotStoppedSpeakingFrame DOWNSTREAM 1000).

(** A watcher with [max_prompts = 1], after the bot stopped speaking. *)
Definition armed_once : SilenceWatcher :=
  fst (process_frame (__init__ "Are you still there?" 10 1 1000)
                     BotStoppedSpeakingFrame DOWNSTREAM 1000).

(** The default watcher after an external hang-up: [cleanup] ran at time
    1100. *)
Definition hung_up : SilenceWatcher := fst (cleanup fresh 1100 1100).

(** The decimal digit of [d], for [0 <= d < 10]. *)
Definition digit (d : Z) : ascii := ascii_of_nat (48 + Z.to_nat d).

(** Follows the spec's words: a number of seconds below 100 written with
    exactly two digits, the tens first. *)
Definition two_digits (r : Z) : string :=
  String (digit (r / 10)) (String (digit (r mod 10)) EmptyString).

(** [s.split("\n")] *)
Fixpoint lines (s : string) : list string :=
  match s with
  | EmptyString => [EmptyString]
  | String c rest =>
      if Ascii.eqb c (ascii_of_nat 10)
      then EmptyString :: lines rest
      else match lines rest with
           | [] => [String c EmptyString]
           | l :: ls => String c l :: ls
           end
  end.

(** No line feed among the characters of [s]. *)
Fixpoint one_line (s : string) : bool :=
  match s with
  | EmptyString => true
  | String c rest => negb (Ascii.eqb c (ascii_of_nat 10)) && one_line rest
  end.

(** The statistics of a finished call that lasted 65 seconds, with the
    counters of the spec's example. *)
Definition example_stats : CallStats :=
  {| call_start_time := 1000;
     call_end_time := Some 1065%Q;
     silence_events := 2;
     user_speech_events := 1;
     bot_speech_events := 3;
     prompts_sent := 2 |}.

End Vocabulary.

(** ** Vocabulary of the further properties *)

Section MoreVocabulary.

Import Upd CallStatsOps Watcher.

(** The fields fixed at construction: the configuration and the start of
    the call. *)
Definition same_config (w w' : SilenceWatcher) : Prop :=
  prompt_text w' = prompt_text w /\
  threshold_secs w' = threshold_secs w /\
  max_prompts w' = max_prompts w /\
  call_start_time (stats w') = call_start_time (stats w).

(** A resumption of the loop task as an event. *)
Definition monitor_event (x : Q * Q * Q) : Event :=
  let '(now, now_end, later) := x in EvMonitor now now_end later.

(** Number of text frames handed to the TTS. *)
Definition prompts_dispatched (out : list Effect) : Z :=
  Z.of_nat (List.length (filter is_prompt out)).

(** The loop task will not run any more of the loop body. *)
Definition loop_stopped (w : SilenceWatcher) : Prop :=
  monitoring_active w = false /\
  (loop_task w = Created \/ loop_task w = AtEndTask \/
   loop_task w = Finished \/ loop_task w = Cancelled).

(** An event the watcher and its pipeline produce by themselves: not a
    direct call of [terminate_call], and a non-zero clock wherever the event
    may store an end time. *)
Definition internal_event (e : Event) : bool :=
  match e with
  | EvFrame _ _ _ => true
  | EvMonitor _ now_end _ => negb (Qeq_bool now_end 0)
  | EvTerminate _ _ => false
  | EvCleanup now _ => negb (Qeq_bool now 0)
  end.

(** A push of a frame other than [EndTaskFrame]. *)
Definition is_forward (e : Effect) : bool :=
  match e with
  | PushFrame EndTaskFrame _ => false
  | PushFrame _ _ => true
  | _ => false
  end.

(** The pushes expected for the frames of a trace, [EndTaskFrame]s left
    out. *)
Definition forwards_of (e : Event) : list Effect :=
  match e with
  | EvFrame EndTaskFrame _ _ => []
  | EvFrame f d _ => [PushFrame f d]
  | _ => []
  end.

(** The three resumptions of the loop task that make one tick with a
    prompt: the check at [now], the dispatch, the re-arm at [now_rearm]. *)
Definition tick_events (x : Q * Q * Q * Q) : list Event :=
  let '(now, now_rearm, now_end, later) := x in
  [ EvMonitor now now now;
    EvMonitor now now now;
    EvMonitor now_rearm now_end later ].

(** Every tick of [ts] finds more than [threshold] seconds elapsed since
    [last], the previous bot-stopped or re-arm time, and re-arms at a
    non-zero clock. *)
Fixpoint silent_windows (threshold last : Q) (ts : list (Q * Q * Q * Q))
  : Prop :=
  match ts with
  | [] => True
  | (now, now_rearm, _, _) :: ts' =>
      (threshold < now - last)%Q /\
      ~ (now_rearm == 0)%Q /\
      silent_windows threshold now_rearm ts'
  end.

(** The clock at which the last tick of [ts] re-arms, [last] if there is
    none. *)
Fixpoint last_rearm (last : Q) (ts : list (Q * Q * Q * Q)) : Q :=
  match ts with
  | [] => last
  | (_, now_rearm, _, _) :: ts' => last_rearm now_rearm ts'
  end.

(** The statistics are not finalized and the monitoring is on. *)
Definition unfinalized (w : SilenceWatcher) : Prop :=
  call_end_time (stats w) = None /\ monitoring_active w = true.

(** The statistics are finalized, the monitoring is off and the loop task
    is past the loop body. *)
Definition finalized (w : SilenceWatcher) : Prop :=
  Py.truthy (call_end_time (stats w)) = true /\
  monitoring_active w = false /\
  (loop_task w = AtEndTask \/ loop_task w = Finished \/
   loop_task w = Cancelled).

(** How [prompts_sent] relates to the number [n] of prompts handed to the
    TTS so far: one ahead during the pacing delay, possibly one ahead when
    the loop task was cancelled, equal otherwise. *)
Definition dispatch_inv (w : SilenceWatcher) (n : Z) : Prop :=
  match loop_task w with
  | AtSleep2 => prompts_sent (stats w) = n + 1
  | Cancelled => n <= prompts_sent (stats w) <= n + 1
  | _ => prompts_sent (stats w) = n
  end.

(** The prompt of a watcher as the TTS receives it. *)
Definition prompt_effect (w : SilenceWatcher) : Effect :=
  TtsProcessFrame (TextFrame (prompt_text w)) DOWNSTREAM.

(** The watcher after the prompt action of a tick that re-armed at
    [now_rearm], before the test of [max_prompts]. *)
Definition prompted (w : SilenceWatcher) (now_rearm : Q) : SilenceWatcher :=
  set_awaiting_response true
    (set_last_bot_spoke_time (Some now_rearm)
       (set_loop_task AtTts
          (set_stats
             (set_prompts_sent (prompts_sent (stats w) + 1)
                (set_silence_events (silence_events (stats w) + 1)
                   (stats w)))
             (set_unanswered_count (unanswered_count w + 1) w)))).

(** The clock of the check of a tick. *)
Definition tick_clock (x : Q * Q * Q * Q) : Q :=
  let '(now, _, _, _) := x in now.

(** The outcome [r] of an escalation that started at [w] and took [n]
    prompts: the [n] prompts and then the termination sequence are all that
    was emitted, the counters went up by [n], the monitoring is off and the
    end time is set. *)
Definition call_ended_after (w : SilenceWatcher) (n : nat)
           (r : SilenceWatcher * list Effect) : Prop :=
  (exists summary,
      snd r = repeat (prompt_effect w) n ++
              [ LoggerInfoSummary summary;
                SetCallTerminated;
                PushFrame EndTaskFrame UPSTREAM ]) /\
  unanswered_count (fst r) = max_prompts w /\
  prompts_sent (stats (fst r)) = prompts_sent (stats w) + Z.of_nat n /\
  silence_events (stats (fst r)) = silence_events (stats w) + Z.of_nat n /\
  monitoring_active (fst r) = false /\
  (exists t, call_end_time (stats (fst r)) = Some t) /\
  forall ms : list (Q * Q * Q),
    snd (run (fst r) (map monitor_event ms)) = [].

(** The default watcher, the loop task asleep, after the bot stopped
    speaking at time 1000; and three silence windows in a row. *)
Definition listening : SilenceWatcher :=
  fst (run fresh [ EvMonitor 1000 1000 1000;
                   EvFrame BotStoppedSpeakingFrame DOWNSTREAM 1000 ]).

Definition three_windows : list (Q * Q * Q * Q) :=
  [ (1011, 1013, 1013, 1013);
    (1024, 1026, 1026, 1026);
    (1037, 1039, 1039, 1039) ]%Q.

(** The character [c] does not occur in [s]. *)
Fixpoint lacks (c : ascii) (s : string) : bool :=
  match s with
  | EmptyString => true
  | String a rest => negb (Ascii.eqb a c) && lacks c rest
  end.

(** Another finished call with the counters of [example_stats]: it
    started at 2000 and lasted 65.5 seconds. *)
Definition example_stats_later : CallStats :=
  {| call_start_time := 2000;
     call_end_time := Some (4131 # 2);
     silence_events := 2;
     user_speech_events := 1;
     bot_speech_events := 3;
     prompts_sent := 2 |}.



End MoreVocabulary.

(** ** Sanity checks of the Python primitives *)

Example str_int_0 : Py.str_int 0 = "0"%string.
Proof. reflexivity. Qed.
Example str_int_neg : Py.str_int (-12) = "-12"%string.
Proof. reflexivity. Qed.
Example fmt_5 : Py.format_0d 2 5 = "05"%string.
Proof. reflexivity. Qed.
Example fmt_59 : Py.format_0d 2 59 = "59"%string.
Proof. reflexivity. Qed.
Example fmt_neg : Py.format_0d 3 (-5) = "-05"%string.
Proof. reflexivity. Qed.
Example int_of_neg : Py.int_of (-7 # 2) = -3.
Proof. reflexivity. Qed.

(** ** Generic facts about the interleaving semantics *)

Section RunFacts.

Import Upd CallStatsOps Watcher.

Lemma run_app (es1 es2 : list Event) (w : SilenceWatcher) :
  run w (es1 ++ es2) =
  let '(w1, out1) := run w es1 in
  let '(w2, out2) := run w1 es2 in
  (w2, out1 ++ out2).
Proof.
  revert w; induction es1 as [|e es1 IH]; intros w; simpl.
  - destruct (run w es2); reflexivity.
  - destruct (step w e) as [w1 o1].
    rewrite IH.
    destruct (run w1 es1) as [w2 o2].
    destruct (run w2 es2) as [w3 o3].
    now rewrite app_assoc.
Qed.

(** The segments of the monitoring loop, case by case. *)
Lemma check_silence_cases (w : SilenceWatcher) (now : Q) :
  check_silence w now = loop_head w \/
  exists last,
    awaiting_response w = true /\
    last_bot_spoke_time w = Some last /\
    Py.truthy (Some last) = true /\
    Py.gt (now - last) (threshold_secs w) = true /\
    check_silence w now =
    set_loop_task AtSleep2
      (set_stats (set_prompts_sent (prompts_sent (stats w) + 1)
                    (set_silence_events (silence_events (stats w) + 1)
                       (stats w)))
         (set_unanswered_count (unanswered_count w + 1)
            (set_awaiting_response false w))).
Proof.
  unfold check_silence.
  destruct (awaiting_response w) eqn:Ha; simpl; [|now left].
  destruct (last_bot_spoke_time w) as [last|] eqn:Hl; simpl; [|now left].
  destruct (negb (Qeq_bool last 0)) eqn:Ht; simpl; [|now left].
  destruct (Py.gt (now - last) (threshold_secs w)) eqn:Hg; [|now left].
  right. exists last. repeat split; auto.
Qed.

Lemma loop_head_stats (w : SilenceWatcher) : stats (loop_head w) = stats w.
Proof. unfold loop_head; destruct (monitoring_active w); reflexivity. Qed.

Lemma loop_head_fields (w : SilenceWatcher) :
  awaiting_response (loop_head w) = awaiting_response w /\
  last_bot_spoke_time (loop_head w) = last_bot_spoke_time w /\
  unanswered_count (loop_head w) = unanswered_count w /\
  monitoring_active (loop_head w) = monitoring_active w.
Proof.
  unfold loop_head; destruct (monitoring_active w) eqn:E; simpl;
    rewrite ?E; repeat split.
Qed.

Lemma loop_head_awaiting (w : SilenceWatcher) :
  awaiting_response (loop_head w) = awaiting_response w.
Proof. apply loop_head_fields. Qed.

Lemma loop_head_last (w : SilenceWatcher) :
  last_bot_spoke_time (loop_head w) = last_bot_spoke_time w.
Proof. apply loop_head_fields. Qed.

Lemma loop_head_unanswered (w : SilenceWatcher) :
  unanswered_count (loop_head w) = unanswered_count w.
Proof. apply loop_head_fields. Qed.

Lemma loop_head_monitoring (w : SilenceWatcher) :
  monitoring_active (loop_head w) = monitoring_active w.
Proof. apply loop_head_fields. Qed.

End RunFacts.

(** ** The counters of [CallStats] along any interleaving *)

Section Counters.

Import Upd CallStatsOps Watcher.

Lemma count_events_cons (p : Event -> bool) (e : Event) (es : list Event) :
  count_events p (e :: es) = bump (p e) + count_events p es.
Proof.
  unfold count_events, bump; simpl.
  destruct (p e); simpl List.length; lia.
Qed.

Lemma terminate_call_counters (w : SilenceWatcher) (now later : Q) :
  let s' := stats (fst (terminate_call w now later)) in
  bot_speech_events s' = bot_speech_events (stats w) /\
  user_speech_events s' = user_speech_events (stats w) /\
  silence_events s' = silence_events (stats w) /\
  prompts_sent s' = prompts_sent (stats w).
Proof. simpl; repeat split. Qed.

Lemma cleanup_counters (w : SilenceWatcher) (now later : Q) :
  let s' := stats (fst (cleanup w now later)) in
  bot_speech_events s' = bot_speech_events (stats w) /\
  user_speech_events s' = user_speech_events (stats w) /\
  silence_events s' = silence_events (stats w) /\
  prompts_sent s' = prompts_sent (stats w).
Proof.
  unfold cleanup.
  destruct (negb (Py.truthy (call_end_time (stats w)))); simpl;
    destruct (loop_task w); simpl; repeat split.
Qed.

Lemma check_silence_counters (w : SilenceWatcher) (now : Q) :
  let s' := stats (check_silence w now) in
  bot_speech_events s' = bot_speech_events (stats w) /\
  user_speech_events s' = user_speech_events (stats w) /\
  silence_events s' - silence_events (stats w) =
  prompts_sent s' - prompts_sent (stats w).
Proof.
  destruct (check_silence_cases w now) as [E | (last & _ & _ & _ & _ & E)];
    rewrite E; cbv zeta.
  - rewrite loop_head_stats. repeat split; lia.
  - simpl. repeat split; lia.
Qed.

Lemma monitor_step_counters (w : SilenceWatcher) (now now_end later : Q) :
  let s' := stats (fst (_monitor_silence w now now_end later)) in
  bot_speech_events s' = bot_speech_events (stats w) /\
  user_speech_events s' = user_speech_events (stats w) /\
  silence_events s' - silence_events (stats w) =
  prompts_sent s' - prompts_sent (stats w).
Proof.
  unfold _monitor_silence.
  destruct (loop_task w); cbv zeta; simpl fst;
    rewrite ?loop_head_stats; try (simpl; repeat split; lia).
  - apply check_silence_counters.
  - unfold rearm. simpl.
    destruct (unanswered_count w >=? max_prompts w); simpl;
      rewrite ?loop_head_stats; simpl; repeat split; lia.
Qed.

Lemma step_counters (w : SilenceWatcher) (e : Event) :
  let s' := stats (fst (step w e)) in
  bot_speech_events s' =
    bot_speech_events (stats w) + bump (is_bot_stopped e) /\
  user_speech_events s' =
    user_speech_events (stats w) + bump (is_user_started e) /\
  silence_events s' - silence_events (stats w) =
  prompts_sent s' - prompts_sent (stats w).
Proof.
  destruct e as [f d now | now now_end later | now later | now later];
    cbv zeta.
  - destruct f; simpl; repeat split; lia.
  - destruct (monitor_step_counters w now now_end later) as (A & B & C).
    simpl step; simpl bump. rewrite A, B. repeat split; lia.
  - simpl. repeat split; lia.
  - destruct (cleanup_counters w now later) as (A & B & C & D).
    simpl step; simpl bump. rewrite A, B, C, D. repeat split; lia.
Qed.

Lemma run_counters (es : list Event) (w : SilenceWatcher) :
  let s' := stats (fst (run w es)) in
  bot_speech_events s' =
    bot_speech_events (stats w) + count_events is_bot_stopped es /\
  user_speech_events s' =
    user_speech_events (stats w) + count_events is_user_started es /\
  silence_events s' - silence_events (stats w) =
  prompts_sent s' - prompts_sent (stats w).
Proof.
  revert w; induction es as [|e es IH]; intros w; cbv zeta.
  - simpl. unfold count_events; simpl. repeat split; lia.
  - simpl run.
    pose proof (step_counters w e) as Hs; cbv zeta in Hs.
    destruct (step w e) as [w1 o1]; simpl fst in Hs.
    specialize (IH w1); cbv zeta in IH.
    destruct (run w1 es) as [w2 o2]; simpl fst in *.
    rewrite !count_events_cons.
    destruct Hs as (A & B & C), IH as (A' & B' & C').
    repeat split; lia.
Qed.

End Counters.

Section CounterClaims.

Import Upd CallStatsOps Watcher.

(** Either both of [silence_events] and [prompts_sent] are left alone, or
    both go up by one, and the latter happens only when the loop task wakes
    from its one-second sleep. *)
Lemma step_silence_prompts (w : SilenceWatcher) (e : Event) :
  let s' := stats (fst (step w e)) in
  (silence_events s' = silence_events (stats w) /\
   prompts_sent s' = prompts_sent (stats w)) \/
  (silence_events s' = silence_events (stats w) + 1 /\
   prompts_sent s' = prompts_sent (stats w) + 1 /\
   loop_task w = AtSleep1 /\
   exists now now_end later, e = EvMonitor now now_end later).
Proof.
  cbv zeta.
  destruct e as [f d now | now now_end later | now later | now later].
  - left. destruct f; simpl; auto.
  - simpl step. unfold _monitor_silence.
    destruct (loop_task w) eqn:Hl; simpl fst;
      rewrite ?loop_head_stats; try (left; simpl; now auto).
    + destruct (check_silence_cases w now) as [E | (l & _ & _ & _ & _ & E)];
        rewrite E.
      * left. rewrite loop_head_stats. auto.
      * right. simpl. repeat split. now exists now, now_end, later.
    + left. unfold rearm. simpl.
      destruct (unanswered_count w >=? max_prompts w); simpl;
        rewrite ?loop_head_stats; simpl; auto.
  - left. simpl. auto.
  - left. destruct (cleanup_counters w now later) as (_ & _ & C & D).
    simpl step. auto.
Qed.

(** C5: along every interleaving of frames, ticks, termination and
    cleanup that starts at a fresh watcher, [bot_speech_events] is the
    number of [BotStoppedSpeakingFrame]s handed to [process_frame] and
    [user_speech_events] the number of [UserStartedSpeakingFrame]s. *)
Theorem speech_counters_count_frames
        (prompt : string) (threshold : Q) (maxp : Z) (t0 : Q)
        (es : list Event) :
  let w := fst (run (__init__ prompt threshold maxp t0) es) in
  bot_speech_events (stats w) = count_events is_bot_stopped es /\
  user_speech_events (stats w) = count_events is_user_started es.
Proof.
  cbv zeta.
  destruct (run_counters es (__init__ prompt threshold maxp t0)) as (A & B & _).
  rewrite A, B. simpl. split; reflexivity.
Qed.

(** C10: in every state reachable from a fresh watcher,
    [silence_events] equals [prompts_sent]; and a single step either leaves
    both alone or adds one to both, which only the tick's prompt action
    (the loop task waking from its one-second sleep) does. *)
Theorem silence_events_eq_prompts_sent
        (prompt : string) (threshold : Q) (maxp : Z) (t0 : Q)
        (es : list Event) :
  let w := fst (run (__init__ prompt threshold maxp t0) es) in
  silence_events (stats w) = prompts_sent (stats w) /\
  forall e : Event,
    let s' := stats (fst (step w e)) in
    (silence_events s' = silence_events (stats w) /\
     prompts_sent s' = prompts_sent (stats w)) \/
    (silence_events s' = silence_events (stats w) + 1 /\
     prompts_sent s' = prompts_sent (stats w) + 1 /\
     loop_task w = AtSleep1 /\
     exists now now_end later, e = EvMonitor now now_end later).
Proof.
  cbv zeta. split.
  - destruct (run_counters es (__init__ prompt threshold maxp t0))
      as (_ & _ & C).
    simpl in C. lia.
  - intros e. apply step_silence_prompts.
Qed.

(** C9: [process_frame] pushes exactly the frame it was given, in the
    direction it was given, whatever the frame is; over a sequence of
    frames every frame is forwarded, once, in arrival order. *)
Theorem process_frame_forwards
        (w : SilenceWatcher) (f : Frame) (d : FrameDirection) (now : Q) :
  snd (process_frame w f d now) = [PushFrame f d] /\
  forall xs : list (Frame * FrameDirection * Q),
    snd (run w (map frame_event xs)) = map forwarded xs.
Proof.
  split; [reflexivity|].
  intros xs; revert w.
  induction xs as [|[[f' d'] t'] xs IH]; intros w; simpl; [reflexivity|].
  specialize (IH (fst (process_frame w f' d' t'))).
  simpl in IH.
  destruct (run _ (map frame_event xs)) as [w2 o2].
  simpl in *. now rewrite IH.
Qed.

End CounterClaims.

(** ** The periodic tick *)

Section Tick.

Import Upd CallStatsOps Watcher.

Lemma gt_true_iff (a b : Q) : Py.gt a b = true <-> (b < a)%Q.
Proof.
  unfold Py.gt. rewrite negb_true_iff.
  split; intros H.
  - apply Qnot_le_lt. intros Hle.
    apply Qle_bool_iff in Hle. congruence.
  - destruct (Qle_bool a b) eqn:E; [|reflexivity].
    apply Qle_bool_iff in E. exfalso. now apply (Qlt_not_le b a).
Qed.

Lemma truthy_some_iff (x : Q) : Py.truthy (Some x) = true <-> ~ (x == 0)%Q.
Proof.
  unfold Py.truthy. rewrite negb_true_iff.
  split; intros H.
  - intros E. apply Qeq_bool_iff in E. congruence.
  - destruct (Qeq_bool x 0) eqn:E; [|reflexivity].
    apply Qeq_bool_iff in E. contradiction.
Qed.

(** The check of a tick when silence is detected. *)
Lemma check_silence_fires (w : SilenceWatcher) (last now : Q) :
  awaiting_response w = true ->
  last_bot_spoke_time w = Some last ->
  ~ (last == 0)%Q ->
  (threshold_secs w < now - last)%Q ->
  check_silence w now =
  set_loop_task AtSleep2
    (set_stats (set_prompts_sent (prompts_sent (stats w) + 1)
                  (set_silence_events (silence_events (stats w) + 1)
                     (stats w)))
       (set_unanswered_count (unanswered_count w + 1)
          (set_awaiting_response false w))).
Proof.
  intros Ha Hl Hz Hlt.
  apply truthy_some_iff in Hz. apply gt_true_iff in Hlt.
  unfold check_silence. rewrite Ha, Hl, Hz. simpl andb. cbv iota.
  cbv zeta. rewrite Hlt. reflexivity.
Qed.

(** The check of a tick when the watcher is not awaiting a response. *)
Lemma tick_idle (w : SilenceWatcher) (now now_rearm now_end later : Q) :
  awaiting_response w = false ->
  tick w now now_rearm now_end later = (loop_head w, []).
Proof.
  intros Ha. unfold tick, check_silence. rewrite Ha. simpl.
  unfold loop_head. destruct (monitoring_active w); reflexivity.
Qed.

(** An uninterrupted tick is the loop task resumed from its one-second
    sleep: once when no silence is detected, three times in a row (check,
    dispatch, re-arm) when it is. *)
Lemma tick_as_run (w : SilenceWatcher) (now now_rearm now_end later : Q) :
  loop_task w = AtSleep1 ->
  tick w now now_rearm now_end later =
  match loop_task (check_silence w now) with
  | AtSleep2 =>
      run w [ EvMonitor now now now;
              EvMonitor now now now;
              EvMonitor now_rearm now_end later ]
  | _ => run w [EvMonitor now now now]
  end.
Proof.
  intros Hl.
  assert (S1 : forall a b,
             _monitor_silence w now a b = (check_silence w now, []))
    by (intros; unfold _monitor_silence; now rewrite Hl).
  unfold tick. cbn [run step]. rewrite !S1.
  destruct (loop_task (check_silence w now)) eqn:E; try reflexivity.
  assert (S2 : forall a b c, _monitor_silence (check_silence w now) a b c
                             = dispatch_prompt (check_silence w now))
    by (intros; unfold _monitor_silence; now rewrite E).
  rewrite S2. unfold dispatch_prompt.
  assert (S3 : _monitor_silence (set_loop_task AtTts (check_silence w now))
                            now_rearm now_end later
               = rearm (set_loop_task AtTts (check_silence w now))
                       now_rearm now_end later) by reflexivity.
  rewrite S3.
  destruct (rearm _ now_rearm now_end later) as [w3 o3].
  now rewrite app_nil_r.
Qed.

End Tick.

Section TickClaims.

Import Upd CallStatsOps Watcher.

(** C3, as amended: on a tick taken while [awaiting_response] is true and
    [last_bot_spoke_time] holds a non-zero clock reading, whenever the
    elapsed time is strictly greater than [threshold_secs] the watcher adds
    one to [unanswered_count], [silence_events] and [prompts_sent], hands
    the prompt to the TTS sink (once), sets [last_bot_spoke_time] to the
    clock read after the dispatch and [awaiting_response] back to true. *)
Theorem tick_prompts_after_threshold
        (w : SilenceWatcher) (last now now_rearm now_end later : Q) :
  awaiting_response w = true ->
  last_bot_spoke_time w = Some last ->
  ~ (last == 0)%Q ->
  (threshold_secs w < now - last)%Q ->
  prompt_action w (tick w now now_rearm now_end later) now_rearm.
Proof.
  intros Ha Hl Hz Hlt.
  unfold tick. rewrite (check_silence_fires w last now Ha Hl Hz Hlt).
  simpl loop_task. cbv iota. unfold dispatch_prompt, rearm. simpl.
  unfold prompt_action.
  destruct (unanswered_count w + 1 >=? max_prompts w); simpl;
    rewrite ?loop_head_stats, ?loop_head_unanswered, ?loop_head_last,
      ?loop_head_awaiting; simpl;
    repeat split; eexists; split; reflexivity.
Qed.

Lemma tick_prompts_after_threshold_witness :
  prompt_action armed (tick armed 1011 1013 1013 1013) 1013.
Proof.
  apply (tick_prompts_after_threshold armed 1000 1011 1013 1013 1013).
  - reflexivity.
  - reflexivity.
  - unfold Qeq; simpl; lia.
  - unfold Qlt; simpl; lia.
Defined.

(** C3 as stated fails at the boundary: the bot stopped speaking at 1000,
    the threshold is 10 and the tick reads the clock at 1010, so the
    elapsed time equals the threshold; the tick does nothing. *)
Lemma tick_at_threshold_does_not_prompt :
  awaiting_response armed = true /\
  last_bot_spoke_time armed = Some 1000%Q /\
  (threshold_secs armed <= 1010 - 1000)%Q /\
  (1010 - 1000 == threshold_secs armed)%Q /\
  ~ prompt_action armed (tick armed 1010 1012 1012 1012) 1012.
Proof.
  repeat split.
  - unfold Qle; simpl; lia.
  - intros (H & _). vm_compute in H. discriminate H.
Qed.

(** C4: once the prompt has been dispatched, the re-arm segment runs the
    termination sequence whenever [unanswered_count >= max_prompts]; hence
    a tick that detects silence terminates the call when the incremented
    count reaches [max_prompts], and with [max_prompts] 0 or 1 the first
    silence timeout (no unanswered prompt so far) does. *)
Theorem termination_when_max_prompts_reached
        (w : SilenceWatcher) (last now now_rearm now_end later : Q) :
  (max_prompts w <= unanswered_count w ->
   termination_ran (rearm w now_rearm now_end later) now_end later) /\
  (awaiting_response w = true ->
   last_bot_spoke_time w = Some last ->
   ~ (last == 0)%Q ->
   (threshold_secs w < now - last)%Q ->
   (max_prompts w <= unanswered_count w + 1 ->
    termination_ran (tick w now now_rearm now_end later) now_end later) /\
   (max_prompts w = 0 \/ max_prompts w = 1 ->
    unanswered_count w = 0 ->
    termination_ran (tick w now now_rearm now_end later) now_end later)).
Proof.
  assert (T : awaiting_response w = true ->
              last_bot_spoke_time w = Some last ->
              ~ (last == 0)%Q ->
              (threshold_secs w < now - last)%Q ->
              max_prompts w <= unanswered_count w + 1 ->
              termination_ran (tick w now now_rearm now_end later)
                              now_end later).
  { intros Ha Hl Hz Hlt Hmax.
    unfold tick. rewrite (check_silence_fires w last now Ha Hl Hz Hlt).
    simpl loop_task. cbv iota. unfold dispatch_prompt, rearm. simpl.
    replace (unanswered_count w + 1 >=? max_prompts w) with true
      by (symmetry; apply Z.geb_le; lia).
    unfold termination_ran; simpl. repeat split.
    exists [TtsProcessFrame (TextFrame (prompt_text w)) DOWNSTREAM].
    split; reflexivity. }
  split.
  - intros Hmax. unfold rearm. simpl.
    replace (unanswered_count w >=? max_prompts w) with true
      by (symmetry; apply Z.geb_le; lia).
    unfold termination_ran; simpl. repeat split.
    exists []. split; reflexivity.
  - intros Ha Hl Hz Hlt. split.
    + now apply T.
    + intros Hm H0. apply T; auto. lia.
Qed.

Lemma termination_when_max_prompts_reached_witness :
  termination_ran (tick armed_once 1011 1013 1013 1013) 1013 1013.
Proof.
  refine (proj2 (proj2 (termination_when_max_prompts_reached
                          armed_once 1000 1011 1013 1013 1013)
                       _ _ _ _) _ _).
  - reflexivity.
  - reflexivity.
  - unfold Qeq; simpl; lia.
  - unfold Qlt; simpl; lia.
  - right; reflexivity.
  - reflexivity.
Defined.

Lemma ticks_idle (ts : list (Q * Q * Q * Q)) (w : SilenceWatcher) :
  awaiting_response w = false ->
  snd (ticks w ts) = [] /\
  stats (fst (ticks w ts)) = stats w /\
  awaiting_response (fst (ticks w ts)) = false /\
  unanswered_count (fst (ticks w ts)) = unanswered_count w /\
  last_bot_spoke_time (fst (ticks w ts)) = last_bot_spoke_time w.
Proof.
  revert w.
  induction ts as [|[[[t1 t2] t3] t4] ts IH]; intros w Ha; simpl.
  - repeat split; assumption.
  - rewrite (tick_idle w t1 t2 t3 t4 Ha).
    destruct (IH (loop_head w)) as (A & B & C & D & E).
    { now rewrite loop_head_awaiting. }
    destruct (ticks (loop_head w) ts) as [w2 o2]; simpl in *.
    rewrite A, B, C, D, E.
    rewrite loop_head_stats, loop_head_unanswered, loop_head_last.
    repeat split.
Qed.

(** C6: a [UserStartedSpeakingFrame] sets [awaiting_response] to false
    and [unanswered_count] to 0; the ticks that follow it (any number, at
    any clock readings) emit nothing, send no prompt and leave the counters
    and the escalation state as they are. *)
Theorem user_speech_cancels_pending_prompt
        (w : SilenceWatcher) (d : FrameDirection) (now : Q) :
  let w1 := fst (process_frame w UserStartedSpeakingFrame d now) in
  awaiting_response w1 = false /\
  unanswered_count w1 = 0 /\
  (forall t t_rearm t_end later,
      tick w1 t t_rearm t_end later = (loop_head w1, [])) /\
  (forall ts : list (Q * Q * Q * Q),
      snd (ticks w1 ts) = [] /\
      stats (fst (ticks w1 ts)) = stats w1 /\
      awaiting_response (fst (ticks w1 ts)) = false /\
      unanswered_count (fst (ticks w1 ts)) = 0).
Proof.
  cbv zeta. repeat split.
  - intros. now apply tick_idle.
  - now apply ticks_idle.
  - now apply ticks_idle.
  - now apply ticks_idle.
  - destruct (ticks_idle ts
                (fst (process_frame w UserStartedSpeakingFrame d now))
                eq_refl) as (_ & _ & _ & H & _).
    exact H.
Qed.

End TickClaims.

(** ** Finalization: [terminate_call] and [cleanup] *)

Section Finalization.

Import Upd CallStatsOps Watcher.

(** [cleanup] is guarded: on finalized statistics it leaves them alone and
    logs nothing. *)
Lemma cleanup_after_finalization (w : SilenceWatcher) (now later : Q) :
  Py.truthy (call_end_time (stats w)) = true ->
  stats (fst (cleanup w now later)) = stats w /\
  snd (cleanup w now later) = [].
Proof.
  intros H. unfold cleanup. rewrite H. simpl.
  destruct (loop_task w); simpl; split; reflexivity.
Qed.

(** [terminate_call] is not: it stores the clock and logs the summary in
    every state. *)
Lemma terminate_call_unguarded (w : SilenceWatcher) (now later : Q) :
  call_end_time (stats (fst (terminate_call w now later))) = Some now /\
  summaries_emitted (snd (terminate_call w now later)) = 1%nat.
Proof. split; reflexivity. Qed.

Lemma terminate_then_cleanup_once (w : SilenceWatcher) (t1 l1 t2 l2 : Q) :
  ~ (t1 == 0)%Q ->
  summaries_emitted
    (snd (run w [EvTerminate t1 l1; EvCleanup t2 l2])) = 1%nat /\
  call_end_time
    (stats (fst (run w [EvTerminate t1 l1; EvCleanup t2 l2]))) = Some t1.
Proof.
  intros Hz. apply truthy_some_iff in Hz.
  cbn [run step].
  destruct (terminate_call_unguarded w t1 l1) as [E1 E2].
  destruct (terminate_call w t1 l1) as [w1 o1];
    simpl fst in *; simpl snd in *.
  destruct (cleanup_after_finalization w1 t2 l2) as [S1 S2].
  { rewrite E1; exact Hz. }
  destruct (cleanup w1 t2 l2) as [w2 o2]; simpl fst in *; simpl snd in *.
  subst o2. rewrite S1, !app_nil_r. split; assumption.
Qed.

(** C1 at the failing input: the statistics were finalized by [cleanup]
    at time 1100; [terminate_call] at time 1200 overwrites
    [call_end_time] with 1200. *)
Theorem terminate_call_overwrites_end_time :
  call_end_time (stats hung_up) = Some 1100%Q /\
  call_end_time (stats (fst (terminate_call hung_up 1200 1200)))
  = Some 1200%Q /\
  Qeq_bool 1200 1100 = false.
Proof. repeat split. Qed.

(** C2 at the failing input: [cleanup] at time 1100 followed by
    [terminate_call] at time 1200 logs the call summary twice (the other
    order logs it once). *)
Theorem cleanup_then_terminate_logs_twice :
  summaries_emitted
    (snd (run fresh [EvCleanup 1100 1100; EvTerminate 1200 1200])) = 2%nat /\
  summaries_emitted
    (snd (run fresh [EvTerminate 1100 1100; EvCleanup 1200 1200])) = 1%nat.
Proof. split; reflexivity. Qed.

End Finalization.

(** ** Rendering: [format_duration] and [generate_summary] *)

Section Rendering.

Import Upd CallStatsOps.
Local Open Scope string_scope.

Lemma one_line_app (a b : string) :
  one_line (a ++ b) = one_line a && one_line b.
Proof.
  induction a as [|c a IH]; simpl; [reflexivity|].
  now rewrite IH, andb_assoc.
Qed.

Lemma lines_one_line (a : string) : one_line a = true -> lines a = [a].
Proof.
  induction a as [|c a IH]; simpl; [reflexivity|].
  intros H. apply andb_true_iff in H. destruct H as [Hc Ha].
  apply negb_true_iff in Hc. rewrite Hc, (IH Ha). reflexivity.
Qed.

Lemma lines_app_newline (a b : string) :
  one_line a = true ->
  lines (a ++ Py.newline ++ b) = a :: lines b.
Proof.
  induction a as [|c a IH]; simpl in *; [reflexivity|].
  intros H. apply andb_true_iff in H. destruct H as [Hc Ha].
  apply negb_true_iff in Hc. rewrite Hc, (IH Ha). reflexivity.
Qed.

(** Splitting what [join] built gives the parts back, when no part
    contains a line feed. *)
Lemma lines_join (parts : list string) :
  parts <> [] ->
  forallb one_line parts = true ->
  lines (Py.join Py.newline parts) = parts.
Proof.
  induction parts as [|p rest IH]; [congruence|].
  intros _ H. simpl in H. apply andb_true_iff in H. destruct H as [Hp Hr].
  destruct rest as [|q rest'].
  - simpl. now apply lines_one_line.
  - change (Py.join Py.newline (p :: q :: rest'))
      with (p ++ Py.newline ++ Py.join Py.newline (q :: rest')).
    rewrite (lines_app_newline _ _ Hp), IH; [reflexivity|discriminate|exact Hr].
Qed.

Lemma one_line_uint (d : Decimal.uint) :
  one_line (NilEmpty.string_of_uint d) = true.
Proof. induction d; simpl; auto. Qed.

Lemma one_line_str_int (n : Z) : one_line (Py.str_int n) = true.
Proof.
  unfold Py.str_int, NilZero.string_of_int.
  destruct (Z.to_int n) as [d|d];
    unfold NilZero.string_of_uint; destruct d; simpl;
    auto using one_line_uint.
Qed.

Lemma one_line_zeros (k : nat) : one_line (Py.zeros k) = true.
Proof. induction k; simpl; auto. Qed.

Lemma one_line_format_0d (width : nat) (n : Z) :
  one_line (Py.format_0d width n) = true.
Proof.
  unfold Py.format_0d. destruct (n <? 0)%Z; simpl;
    now rewrite one_line_app, one_line_zeros, one_line_str_int.
Qed.

Lemma one_line_format_duration (s : CallStats) (now : Q) :
  one_line (format_duration s now) = true.
Proof.
  unfold format_duration, Py.divmod.
  rewrite !one_line_app, one_line_str_int, one_line_format_0d.
  reflexivity.
Qed.

End Rendering.

Section RenderingClaims.

Import Upd CallStatsOps.
Local Open Scope string_scope.

(** [int] of a number in the interval from [n] to [n + 1] (excluded),
    [n] non-negative, is [n]. *)
Lemma int_of_whole (q : Q) (n : Z) :
  (0 <= n)%Z ->
  (inject_Z n <= q)%Q ->
  (q < inject_Z n + 1)%Q ->
  Py.int_of q = n.
Proof.
  destruct q as [a d]. unfold Py.int_of, Qle, Qlt, inject_Z; simpl.
  intros Hn Hle Hlt.
  rewrite Z.quot_div_nonneg by lia.
  symmetry. apply (Z.div_unique_pos a (Zpos d) n (a - n * Zpos d)); lia.
Qed.

Lemma format_0d_two_digits_nat (k : nat) :
  (k < 60)%nat ->
  Py.format_0d 2 (Z.of_nat k) = two_digits (Z.of_nat k).
Proof.
  intros H.
  do 60 (destruct k as [|k]; [reflexivity|]).
  lia.
Qed.

(** The code's zero padding agrees with the two-digit rendering on every
    remainder of a division by 60. *)
Lemma format_0d_two_digits (r : Z) :
  (0 <= r < 60)%Z -> Py.format_0d 2 r = two_digits r.
Proof.
  intros H. rewrite <- (Z2Nat.id r) by lia.
  apply format_0d_two_digits_nat. lia.
Qed.

(** C8: for a duration of [n] whole seconds, [n] non-negative (the
    fractional part is dropped by [int]), [format_duration] is the decimal
    rendering of [n / 60], a colon, and [n mod 60] written with two
    digits; for 65 seconds it is "1:05". *)
Theorem format_duration_minutes_seconds
        (s : CallStats) (now : Q) (n : Z) :
  (0 <= n)%Z ->
  (inject_Z n <= duration_seconds s now)%Q ->
  (duration_seconds s now < inject_Z n + 1)%Q ->
  format_duration s now
  = Py.str_int (n / 60) ++ ":" ++ two_digits (n mod 60) /\
  (n = 65%Z -> format_duration s now = "1:05").
Proof.
  intros Hn Hle Hlt.
  assert (E : format_duration s now
              = Py.str_int (n / 60) ++ ":" ++ two_digits (n mod 60)).
  { unfold format_duration, Py.divmod.
    rewrite (int_of_whole _ n Hn Hle Hlt).
    rewrite format_0d_two_digits; [reflexivity|].
    apply Z.mod_pos_bound. lia. }
  split; [exact E|].
  intros ->. rewrite E. reflexivity.
Qed.

Lemma format_duration_minutes_seconds_witness :
  format_duration example_stats 0 = "1:05".
Proof.
  refine (proj2 (format_duration_minutes_seconds example_stats 0 65 _ _ _)
                eq_refl).
  - lia.
  - unfold Qle; simpl; lia.
  - unfold Qlt; simpl; lia.
Defined.

(** [int] does not tell equal rationals apart. *)
Lemma int_of_Qeq (q : Q) (n : Z) :
  (0 <= n)%Z -> (q == inject_Z n)%Q -> Py.int_of q = n.
Proof.
  intros Hn Hq. apply int_of_whole; [exact Hn| |]; rewrite Hq.
  - apply Qle_refl.
  - unfold Qlt, inject_Z; simpl; lia.
Qed.

(** C7: the summary consists of exactly six lines, in this order: the
    header, the duration, the silence events, the prompts sent, the user
    speech events, the bot speech events.  It is a function of the four
    counters and of the whole seconds of the duration.  For a duration of
    65 seconds and the counters 2, 2, 1, 3 it is the text given, with the
    duration rendered as 1:05. *)
Theorem generate_summary_six_lines (s : CallStats) (now : Q) :
  lines (generate_summary s now)
  = [ "=== CALL SUMMARY ===";
      "Duration: " ++ format_duration s now;
      "Silence events: " ++ Py.str_int (silence_events s);
      "Prompts sent: " ++ Py.str_int (prompts_sent s);
      "User speech events: " ++ Py.str_int (user_speech_events s);
      "Bot speech events: " ++ Py.str_int (bot_speech_events s) ] /\
  (forall (s' : CallStats) (now' : Q),
      Py.int_of (duration_seconds s' now')
      = Py.int_of (duration_seconds s now) ->
      silence_events s' = silence_events s ->
      prompts_sent s' = prompts_sent s ->
      user_speech_events s' = user_speech_events s ->
      bot_speech_events s' = bot_speech_events s ->
      generate_summary s' now' = generate_summary s now) /\
  ((duration_seconds s now == 65)%Q ->
   silence_events s = 2%Z ->
   prompts_sent s = 2%Z ->
   user_speech_events s = 1%Z ->
   bot_speech_events s = 3%Z ->
   generate_summary s now
   = "=== CALL SUMMARY ===" ++ Py.newline ++
     "Duration: 1:05" ++ Py.newline ++
     "Silence events: 2" ++ Py.newline ++
     "Prompts sent: 2" ++ Py.newline ++
     "User speech events: 1" ++ Py.newline ++
     "Bot speech events: 3").
Proof.
  repeat split.
  - unfold generate_summary. rewrite lines_join.
    + reflexivity.
    + discriminate.
    + cbn [forallb].
      rewrite !one_line_app, one_line_format_duration, !one_line_str_int.
      reflexivity.
  - intros s' now' Hd H1 H2 H3 H4.
    unfold generate_summary, format_duration.
    now rewrite Hd, H1, H2, H3, H4.
  - intros Hd H1 H2 H3 H4.
    unfold generate_summary, format_duration.
    rewrite (int_of_Qeq _ 65 ltac:(lia) Hd), H1, H2, H3, H4.
    reflexivity.
Qed.

Lemma generate_summary_six_lines_witness :
  generate_summary example_stats 0
  = "=== CALL SUMMARY ===" ++ Py.newline ++
    "Duration: 1:05" ++ Py.newline ++
    "Silence events: 2" ++ Py.newline ++
    "Prompts sent: 2" ++ Py.newline ++
    "User speech events: 1" ++ Py.newline ++
    "Bot speech events: 3".
Proof.
  refine (proj2 (proj2 (generate_summary_six_lines example_stats 0))
                _ eq_refl eq_refl eq_refl eq_refl).
  unfold Qeq; simpl; lia.
Defined.

End RenderingClaims.

(** ** The watcher along any interleaving: further invariants *)

Section WatcherInvariants.

Import Upd CallStatsOps Watcher.

Lemma same_config_refl (w : SilenceWatcher) : same_config w w.
Proof. repeat split. Qed.

Lemma same_config_trans (w1 w2 w3 : SilenceWatcher) :
  same_config w1 w2 -> same_config w2 w3 -> same_config w1 w3.
Proof.
  unfold same_config. intros (A & B & C & D) (A' & B' & C' & D').
  repeat split; congruence.
Qed.

Lemma loop_head_config (w : SilenceWatcher) : same_config w (loop_head w).
Proof. unfold loop_head; destruct (monitoring_active w); repeat split. Qed.

Lemma check_silence_config (w : SilenceWatcher) (now : Q) :
  same_config w (check_silence w now).
Proof.
  destruct (check_silence_cases w now) as [E | (l & _ & _ & _ & _ & E)];
    rewrite E; [apply loop_head_config | repeat split].
Qed.

Lemma rearm_config (w : SilenceWatcher) (now now_end later : Q) :
  same_config w (fst (rearm w now now_end later)).
Proof.
  unfold rearm. cbn.
  destruct (unanswered_count w >=? max_prompts w); cbn.
  - repeat split.
  - eapply same_config_trans; [|apply loop_head_config]. repeat split.
Qed.

Lemma cleanup_config (w : SilenceWatcher) (now later : Q) :
  same_config w (fst (cleanup w now later)).
Proof.
  unfold cleanup.
  destruct (negb (Py.truthy (call_end_time (stats w)))); cbn;
    destruct (loop_task w); repeat split.
Qed.

Lemma step_config (w : SilenceWatcher) (e : Event) :
  same_config w (fst (step w e)).
Proof.
  destruct e as [f d now | now now_end later | now later | now later];
    cbn [step].
  - destruct f; repeat split.
  - unfold _monitor_silence. destruct (loop_task w); cbn [fst];
      auto using same_config_refl, loop_head_config, check_silence_config,
        rearm_config.
    repeat split.
  - repeat split.
  - apply cleanup_config.
Qed.

(** X1: the prompt text, the threshold, the maximum number of prompts and
    the start time of the call are never changed, whatever the watcher
    goes through. *)
Theorem configuration_is_immutable (w : SilenceWatcher) (es : list Event) :
  prompt_text (fst (run w es)) = prompt_text w /\
  threshold_secs (fst (run w es)) = threshold_secs w /\
  max_prompts (fst (run w es)) = max_prompts w /\
  call_start_time (stats (fst (run w es))) = call_start_time (stats w).
Proof.
  change (same_config w (fst (run w es))).
  revert w; induction es as [|e es IH]; intros w; cbn [run].
  - apply same_config_refl.
  - pose proof (step_config w e) as Hs.
    destruct (step w e) as [w1 o1]; cbn [fst] in Hs.
    specialize (IH w1).
    destruct (run w1 es) as [w2 o2]; cbn [fst] in *.
    eapply same_config_trans; eassumption.
Qed.

(** What one step does to the escalation counter and to [prompts_sent]:
    nothing, a reset of the counter by a user frame, or one more prompt. *)
Lemma step_unanswered (w : SilenceWatcher) (e : Event) :
  let w' := fst (step w e) in
  (unanswered_count w' = unanswered_count w /\
   prompts_sent (stats w') = prompts_sent (stats w)) \/
  (unanswered_count w' = 0 /\
   prompts_sent (stats w') = prompts_sent (stats w)) \/
  (unanswered_count w' = unanswered_count w + 1 /\
   prompts_sent (stats w') = prompts_sent (stats w) + 1).
Proof.
  cbv zeta.
  destruct e as [f d now | now now_end later | now later | now later];
    cbn [step].
  - destruct f; cbn; auto.
  - unfold _monitor_silence.
    destruct (loop_task w); cbn [fst];
      rewrite ?loop_head_unanswered, ?loop_head_stats; auto.
    + destruct (check_silence_cases w now) as [E | (l & _ & _ & _ & _ & E)];
        rewrite E.
      * rewrite loop_head_unanswered, loop_head_stats. auto.
      * right; right. split; reflexivity.
    + left. unfold rearm. cbn.
      destruct (unanswered_count w >=? max_prompts w); cbn;
        rewrite ?loop_head_unanswered, ?loop_head_stats; auto.
  - left. split; reflexivity.
  - left. unfold cleanup.
    destruct (negb (Py.truthy (call_end_time (stats w)))); cbn;
      destruct (loop_task w); split; reflexivity.
Qed.

(** X2: in every state reachable from a fresh watcher the number of
    consecutive unanswered prompts lies between 0 and the number of prompts
    sent during the call. *)
Theorem unanswered_count_bounds
        (prompt : string) (threshold : Q) (maxp : Z) (t0 : Q)
        (es : list Event) :
  let w := fst (run (__init__ prompt threshold maxp t0) es) in
  0 <= unanswered_count w <= prompts_sent (stats w).
Proof.
  cbv zeta.
  assert (G : forall es w,
             0 <= unanswered_count w <= prompts_sent (stats w) ->
             0 <= unanswered_count (fst (run w es))
             <= prompts_sent (stats (fst (run w es)))).
  { clear. intros es. induction es as [|e es IH]; intros w Hw; cbn [run].
    - exact Hw.
    - pose proof (step_unanswered w e) as Hs; cbv zeta in Hs.
      destruct (step w e) as [w1 o1]; cbn [fst] in Hs.
      specialize (IH w1).
      destruct (run w1 es) as [w2 o2]; cbn [fst] in *.
      apply IH. lia. }
  apply G. cbn. lia.
Qed.

(** What one step does to the counters of [CallStats]: none of them goes
    down. *)
Lemma step_counters_grow (w : SilenceWatcher) (e : Event) :
  let s' := stats (fst (step w e)) in
  silence_events (stats w) <= silence_events s' /\
  prompts_sent (stats w) <= prompts_sent s' /\
  user_speech_events (stats w) <= user_speech_events s' /\
  bot_speech_events (stats w) <= bot_speech_events s'.
Proof.
  cbv zeta.
  destruct (step_counters w e) as (A & B & _).
  destruct (step_silence_prompts w e) as [(C & D) | (C & D & _)];
    rewrite A, B, C, D;
    destruct (is_bot_stopped e), (is_user_started e); cbn; lia.
Qed.

(** X3: the four counters of the statistics never decrease, from any
    state and along any interleaving. *)
Theorem counters_never_decrease (w : SilenceWatcher) (es : list Event) :
  let s' := stats (fst (run w es)) in
  silence_events (stats w) <= silence_events s' /\
  prompts_sent (stats w) <= prompts_sent s' /\
  user_speech_events (stats w) <= user_speech_events s' /\
  bot_speech_events (stats w) <= bot_speech_events s'.
Proof.
  cbv zeta. revert w; induction es as [|e es IH]; intros w; cbn [run].
  - cbn. lia.
  - pose proof (step_counters_grow w e) as Hs; cbv zeta in Hs.
    destruct (step w e) as [w1 o1]; cbn [fst] in Hs.
    specialize (IH w1).
    destruct (run w1 es) as [w2 o2]; cbn [fst] in *.
    lia.
Qed.

Lemma check_silence_monitoring (w : SilenceWatcher) (now : Q) :
  monitoring_active (check_silence w now) = monitoring_active w /\
  call_end_time (stats (check_silence w now)) = call_end_time (stats w).
Proof.
  destruct (check_silence_cases w now) as [E | (l & _ & _ & _ & _ & E)];
    rewrite E.
  - now rewrite loop_head_monitoring, loop_head_stats.
  - split; reflexivity.
Qed.

(** A step leaves [monitoring_active] and [call_end_time] alone, or it
    stops the monitoring and leaves an end time behind. *)
Lemma step_monitoring (w : SilenceWatcher) (e : Event) :
  let w' := fst (step w e) in
  (monitoring_active w' = monitoring_active w /\
   call_end_time (stats w') = call_end_time (stats w)) \/
  (monitoring_active w' = false /\
   exists t, call_end_time (stats w') = Some t).
Proof.
  cbv zeta.
  destruct e as [f d now | now now_end later | now later | now later];
    cbn [step].
  - left. destruct f; split; reflexivity.
  - unfold _monitor_silence.
    destruct (loop_task w); cbn [fst];
      rewrite ?loop_head_monitoring, ?loop_head_stats; auto.
    + left. apply check_silence_monitoring.
    + unfold rearm. cbn.
      destruct (unanswered_count w >=? max_prompts w); cbn.
      * right. split; [reflexivity | now exists now_end].
      * left. now rewrite loop_head_monitoring, loop_head_stats.
  - right. split; [reflexivity | now exists now].
  - right. unfold cleanup.
    destruct (call_end_time (stats w)) as [t|] eqn:Ht; cbn.
    + destruct (negb (Qeq_bool t 0)); cbn; destruct (loop_task w); cbn;
        (split; [reflexivity|]); eauto.
    + destruct (loop_task w); cbn; (split; [reflexivity|]); eauto.
Qed.

Lemma run_monitoring (es : list Event) (w : SilenceWatcher) :
  (monitoring_active w = false -> exists t, call_end_time (stats w) = Some t)
  ->
  (monitoring_active w = false -> monitoring_active (fst (run w es)) = false)
  /\
  (monitoring_active (fst (run w es)) = false ->
   exists t, call_end_time (stats (fst (run w es))) = Some t).
Proof.
  revert w; induction es as [|e es IH]; intros w Hw; cbn [run].
  - cbn. auto.
  - pose proof (step_monitoring w e) as Hs; cbv zeta in Hs.
    destruct (step w e) as [w1 o1]; cbn [fst] in Hs.
    specialize (IH w1).
    destruct (run w1 es) as [w2 o2]; cbn [fst] in *.
    destruct Hs as [(A & B) | (A & B)].
    + rewrite A, B in IH. destruct (IH Hw) as (I1 & I2). auto.
    + destruct (IH (fun _ => B)) as (I1 & I2). auto.
Qed.

(** X4: in every state reachable from a fresh watcher, monitoring that is
    switched off comes with an end time of the call, and from then on it
    stays switched off and the end time stays set. *)
Theorem monitoring_stops_for_good
        (prompt : string) (threshold : Q) (maxp : Z) (t0 : Q)
        (es es' : list Event) :
  let w := fst (run (__init__ prompt threshold maxp t0) es) in
  monitoring_active w = false ->
  (exists t, call_end_time (stats w) = Some t) /\
  monitoring_active (fst (run w es')) = false /\
  (exists t, call_end_time (stats (fst (run w es'))) = Some t).
Proof.
  cbv zeta. intros Hm.
  destruct (run_monitoring es (__init__ prompt threshold maxp t0))
    as (_ & I2); [discriminate|].
  specialize (I2 Hm).
  destruct (run_monitoring es' _ (fun _ => I2)) as (J1 & J2).
  auto.
Qed.

Lemma monitoring_stops_for_good_witness :
  (exists t,
      call_end_time
        (stats (fst (run (__init__ "Hello?" 10 3 1000)
                         [EvCleanup 1100 1100]))) = Some t) /\
  monitoring_active
    (fst (run (fst (run (__init__ "Hello?" 10 3 1000) [EvCleanup 1100 1100]))
              [EvFrame BotStoppedSpeakingFrame DOWNSTREAM 1200;
               EvMonitor 1300 1300 1300])) = false /\
  (exists t,
      call_end_time
        (stats
           (fst (run (fst (run (__init__ "Hello?" 10 3 1000)
                               [EvCleanup 1100 1100]))
                     [EvFrame BotStoppedSpeakingFrame DOWNSTREAM 1200;
                      EvMonitor 1300 1300 1300]))) = Some t).
Proof.
  apply (monitoring_stops_for_good "Hello?" 10 3 1000 [EvCleanup 1100 1100]).
  reflexivity.
Defined.

Lemma monitor_when_done (w : SilenceWatcher) (now now_end later : Q) :
  loop_task w = Finished \/ loop_task w = Cancelled ->
  _monitor_silence w now now_end later = (w, []).
Proof. intros [H | H]; unfold _monitor_silence; now rewrite H. Qed.

Lemma cleanup_loop_task (w : SilenceWatcher) (now later : Q) :
  monitoring_active (fst (cleanup w now later)) = false /\
  (loop_task (fst (cleanup w now later)) = Finished \/
   loop_task (fst (cleanup w now later)) = Cancelled).
Proof.
  unfold cleanup.
  destruct (negb (Py.truthy (call_end_time (stats w)))); cbn;
    destruct (loop_task w) eqn:E; cbn; rewrite ?E; auto.
Qed.

(** X5: [cleanup] stops the background loop for good: whenever and however
    often the loop task would be resumed afterwards, the watcher stays as
    [cleanup] left it and nothing is emitted, no prompt in particular. *)
Theorem cleanup_stops_the_loop
        (w : SilenceWatcher) (now later : Q) (ms : list (Q * Q * Q)) :
  run (fst (cleanup w now later)) (map monitor_event ms)
  = (fst (cleanup w now later), []) /\
  monitoring_active (fst (cleanup w now later)) = false.
Proof.
  destruct (cleanup_loop_task w now later) as (Hm & Hl).
  split; [|exact Hm].
  generalize dependent (fst (cleanup w now later)). intros w1 _ Hl.
  induction ms as [|[[a b] c] ms IH]; cbn [map run monitor_event step].
  - reflexivity.
  - rewrite (monitor_when_done w1 a b c Hl), IH. reflexivity.
Qed.

Lemma summaries_emitted_app (a b : list Effect) :
  summaries_emitted (a ++ b)
  = (summaries_emitted a + summaries_emitted b)%nat.
Proof. unfold summaries_emitted. now rewrite filter_app, length_app. Qed.

Lemma finalized_step (w : SilenceWatcher) (e : Event) :
  finalized w ->
  internal_event e = true ->
  finalized (fst (step w e)) /\
  call_end_time (stats (fst (step w e))) = call_end_time (stats w) /\
  summaries_emitted (snd (step w e)) = 0%nat.
Proof.
  intros (He & Hm & Hl) Hi.
  destruct e as [f d now | now now_end later | now later | now later];
    cbn [step]; [| | discriminate Hi |].
  - unfold finalized. destruct f; cbn; auto.
  - unfold _monitor_silence, loop_head, finalized.
    destruct Hl as [Hl | [Hl | Hl]]; rewrite Hl; cbn; rewrite ?Hm; cbn;
      rewrite ?Hl; auto 6.
  - unfold cleanup, finalized. rewrite He. cbn.
    destruct Hl as [Hl | [Hl | Hl]]; rewrite Hl; cbn; auto 6.
Qed.

Lemma unfinalized_step (w : SilenceWatcher) (e : Event) :
  unfinalized w ->
  internal_event e = true ->
  (unfinalized (fst (step w e)) /\
   summaries_emitted (snd (step w e)) = 0%nat) \/
  (finalized (fst (step w e)) /\
   summaries_emitted (snd (step w e)) = 1%nat).
Proof.
  intros (He & Hm) Hi.
  destruct e as [f d now | now now_end later | now later | now later];
    cbn [step]; [| | discriminate Hi |].
  - left. unfold unfinalized. destruct f; cbn; auto.
  - cbn in Hi. unfold _monitor_silence.
    destruct (loop_task w) eqn:Hl; cbn [fst snd];
      try (left; unfold unfinalized;
           rewrite ?loop_head_stats, ?loop_head_monitoring; now auto).
    + left. unfold unfinalized.
      destruct (check_silence_monitoring w now) as (A & B).
      rewrite A, B. auto.
    + unfold rearm. cbn.
      destruct (unanswered_count w >=? max_prompts w); cbn.
      * right. unfold finalized. cbn. auto.
      * left. unfold unfinalized.
        rewrite loop_head_stats, loop_head_monitoring. cbn. auto.
  - right. cbn in Hi. unfold cleanup, finalized. rewrite He. cbn.
    destruct (loop_task w) eqn:Hl; cbn; rewrite ?Hl; auto 6.
Qed.

Lemma run_finalized (es : list Event) (w : SilenceWatcher) :
  finalized w ->
  forallb internal_event es = true ->
  finalized (fst (run w es)) /\
  call_end_time (stats (fst (run w es))) = call_end_time (stats w) /\
  summaries_emitted (snd (run w es)) = 0%nat.
Proof.
  revert w; induction es as [|e es IH]; intros w Hw Hi; cbn [run].
  - cbn. auto.
  - cbn in Hi. apply andb_true_iff in Hi. destruct Hi as [Hi1 Hi2].
    destruct (finalized_step w e Hw Hi1) as (A & B & C).
    destruct (step w e) as [w1 o1]; cbn [fst snd] in *.
    destruct (IH w1 A Hi2) as (A' & B' & C').
    destruct (run w1 es) as [w2 o2]; cbn [fst snd] in *.
    rewrite summaries_emitted_app, B', B, C, C'. auto.
Qed.

Lemma run_unfinalized (es : list Event) (w : SilenceWatcher) :
  unfinalized w ->
  forallb internal_event es = true ->
  (unfinalized (fst (run w es)) /\
   summaries_emitted (snd (run w es)) = 0%nat) \/
  (finalized (fst (run w es)) /\
   summaries_emitted (snd (run w es)) = 1%nat).
Proof.
  revert w; induction es as [|e es IH]; intros w Hw Hi; cbn [run].
  - left. cbn. auto.
  - cbn in Hi. apply andb_true_iff in Hi. destruct Hi as [Hi1 Hi2].
    destruct (unfinalized_step w e Hw Hi1) as [(A & C) | (A & C)].
    + destruct (step w e) as [w1 o1]; cbn [fst snd] in *.
      destruct (IH w1 A Hi2) as [(A' & C') | (A' & C')];
        destruct (run w1 es) as [w2 o2]; cbn [fst snd] in *;
        rewrite summaries_emitted_app, C, C'; auto.
    + destruct (step w e) as [w1 o1]; cbn [fst snd] in *.
      destruct (run_finalized es w1 A Hi2) as (A' & _ & C').
      destruct (run w1 es) as [w2 o2]; cbn [fst snd] in *.
      rewrite summaries_emitted_app, C, C'. auto.
Qed.

Lemma truthy_is_some (o : option Q) :
  Py.truthy o = true -> exists t, o = Some t /\ ~ (t == 0)%Q.
Proof.
  destruct o as [t|]; [|discriminate].
  intros H. exists t. split; [reflexivity|]. now apply truthy_some_iff.
Qed.

(** X6: as long as [terminate_call] is reached through the monitoring loop
    only (frames, resumptions of the loop task and [cleanup] in any order
    and number, with non-zero clocks), the call summary is logged at most
    once: either nothing is finalized yet and the monitoring is on, or
    exactly one summary was logged, the end time is set and the monitoring
    is off. *)
Theorem summary_logged_at_most_once
        (prompt : string) (threshold : Q) (maxp : Z) (t0 : Q)
        (es : list Event) :
  forallb internal_event es = true ->
  let r := run (__init__ prompt threshold maxp t0) es in
  (summaries_emitted (snd r) = 0%nat /\
   call_end_time (stats (fst r)) = None /\
   monitoring_active (fst r) = true) \/
  (summaries_emitted (snd r) = 1%nat /\
   (exists t, call_end_time (stats (fst r)) = Some t /\ ~ (t == 0)%Q) /\
   monitoring_active (fst r) = false).
Proof.
  intros Hi. cbv zeta.
  destruct (run_unfinalized es (__init__ prompt threshold maxp t0))
    as [((A & B) & C) | ((A & B & _) & C)]; auto.
  - split; reflexivity.
  - right. auto using truthy_is_some.
Qed.

Lemma summary_logged_at_most_once_witness :
  let r := run (__init__ "Hello?" 10 1 1000)
               [ EvFrame BotStoppedSpeakingFrame DOWNSTREAM 1000;
                 EvMonitor 1001 1001 1001;
                 EvMonitor 1011 1011 1011;
                 EvMonitor 1013 1013 1013;
                 EvMonitor 1014 1014 1014;
                 EvCleanup 1020 1020 ] in
  (summaries_emitted (snd r) = 0%nat /\
   call_end_time (stats (fst r)) = None /\
   monitoring_active (fst r) = true) \/
  (summaries_emitted (snd r) = 1%nat /\
   (exists t, call_end_time (stats (fst r)) = Some t /\ ~ (t == 0)%Q) /\
   monitoring_active (fst r) = false).
Proof.
  apply (summary_logged_at_most_once "Hello?" 10 1 1000).
  reflexivity.
Defined.

(** X7: under the same condition the end time of the call is written once:
    when it is set after a trace, it has the same value after every
    continuation of the trace, and the continuation logs no summary. *)
Theorem end_time_written_once
        (prompt : string) (threshold : Q) (maxp : Z) (t0 t : Q)
        (es es' : list Event) :
  forallb internal_event es = true ->
  forallb internal_event es' = true ->
  let w := fst (run (__init__ prompt threshold maxp t0) es) in
  call_end_time (stats w) = Some t ->
  call_end_time (stats (fst (run w es'))) = Some t /\
  summaries_emitted (snd (run w es')) = 0%nat.
Proof.
  intros Hi Hi'. cbv zeta. intros Ht.
  destruct (run_unfinalized es (__init__ prompt threshold maxp t0))
    as [((A & B) & C) | (F & C)]; auto.
  - split; reflexivity.
  - congruence.
  - destruct (run_finalized es' _ F Hi') as (_ & E & S).
    rewrite E, Ht. auto.
Qed.

Lemma end_time_written_once_witness :
  let w := fst (run (__init__ "Hello?" 10 3 1000) [EvCleanup 1100 1100]) in
  call_end_time
    (stats (fst (run w [EvFrame BotStoppedSpeakingFrame DOWNSTREAM 1200;
                        EvMonitor 1300 1300 1300;
                        EvCleanup 1400 1400]))) = Some 1100%Q /\
  summaries_emitted
    (snd (run w [EvFrame BotStoppedSpeakingFrame DOWNSTREAM 1200;
                 EvMonitor 1300 1300 1300;
                 EvCleanup 1400 1400])) = 0%nat.
Proof.
  apply (end_time_written_once "Hello?" 10 3 1000 1100
                               [EvCleanup 1100 1100]);
    reflexivity.
Defined.

Lemma prompts_dispatched_app (a b : list Effect) :
  prompts_dispatched (a ++ b) = prompts_dispatched a + prompts_dispatched b.
Proof.
  unfold prompts_dispatched. rewrite filter_app, length_app. lia.
Qed.

(** The effects of one step contain no prompt or exactly the configured
    one, and [dispatch_inv] follows the count. *)
Lemma step_dispatch (w : SilenceWatcher) (e : Event) (n : Z) :
  dispatch_inv w n ->
  dispatch_inv (fst (step w e)) (n + prompts_dispatched (snd (step w e))) /\
  (filter is_prompt (snd (step w e)) = [] \/
   filter is_prompt (snd (step w e)) = [prompt_effect w]).
Proof.
  unfold dispatch_inv. intros H.
  destruct e as [f d now | now now_end later | now later | now later];
    cbn [step].
  - destruct f; cbn; rewrite Z.add_0_r; auto.
  - unfold _monitor_silence.
    destruct (loop_task w) eqn:Hl; cbn [fst snd].
    + unfold loop_head. destruct (monitoring_active w); cbn;
        rewrite Z.add_0_r; auto.
    + destruct (check_silence_cases w now) as [E | (l & _ & _ & _ & _ & E)];
        rewrite E; [unfold loop_head; destruct (monitoring_active w)|]; cbn;
        rewrite Z.add_0_r; auto. split; [lia | auto].
    + cbn. split; [lia | now right].
    + unfold rearm, loop_head. cbn.
      destruct (unanswered_count w >=? max_prompts w); cbn;
        [|destruct (monitoring_active w); cbn]; rewrite Z.add_0_r; auto.
    + unfold loop_head. destruct (monitoring_active w); cbn;
        rewrite Z.add_0_r; auto.
    + rewrite Hl, Z.add_0_r. auto.
    + rewrite Hl, Z.add_0_r. auto.
  - cbn. rewrite Z.add_0_r. auto.
  - unfold cleanup. revert H.
    destruct (negb (Py.truthy (call_end_time (stats w)))); cbn;
      destruct (loop_task w) eqn:Hl; cbn; intros H;
      rewrite ?Hl, Z.add_0_r; (split; [lia | auto]).
Qed.

Lemma run_dispatch (es : list Event) (w : SilenceWatcher) (n : Z) :
  dispatch_inv w n ->
  dispatch_inv (fst (run w es)) (n + prompts_dispatched (snd (run w es))) /\
  filter is_prompt (snd (run w es))
  = repeat (prompt_effect w)
           (List.length (filter is_prompt (snd (run w es)))).
Proof.
  revert w n; induction es as [|e es IH]; intros w n Hw; cbn [run].
  - cbn. rewrite Z.add_0_r. auto.
  - destruct (step_dispatch w e n Hw) as (A & B).
    pose proof (step_config w e) as (Hp & _).
    destruct (step w e) as [w1 o1]; cbn [fst snd] in *.
    destruct (IH w1 _ A) as (A' & B').
    destruct (run w1 es) as [w2 o2]; cbn [fst snd] in *.
    rewrite prompts_dispatched_app, Z.add_assoc. split; [exact A'|].
    rewrite filter_app, length_app, repeat_app.
    unfold prompt_effect in *. rewrite Hp in B'. rewrite <- B'.
    destruct B as [B | B]; rewrite B; reflexivity.
Qed.

(** X8: the only thing the watcher ever hands to the TTS is its configured
    prompt, downstream; and [prompts_sent] is the number of prompts handed
    over, or one more (the counter is raised before the pacing delay, and
    a [cleanup] during the delay cancels the dispatch). *)
Theorem prompts_sent_counts_dispatched_prompts
        (prompt : string) (threshold : Q) (maxp : Z) (t0 : Q)
        (es : list Event) :
  let r := run (__init__ prompt threshold maxp t0) es in
  filter is_prompt (snd r)
  = repeat (TtsProcessFrame (TextFrame prompt) DOWNSTREAM)
           (List.length (filter is_prompt (snd r))) /\
  prompts_dispatched (snd r) <= prompts_sent (stats (fst r))
  <= prompts_dispatched (snd r) + 1.
Proof.
  cbv zeta.
  destruct (run_dispatch es (__init__ prompt threshold maxp t0) 0
                         eq_refl) as (A & B).
  split; [exact B|].
  unfold dispatch_inv in A. rewrite Z.add_0_l in A.
  destruct (loop_task (fst (run (__init__ prompt threshold maxp t0) es)));
    lia.
Qed.

Lemma step_forwards (w : SilenceWatcher) (e : Event) :
  filter is_forward (snd (step w e)) = forwards_of e.
Proof.
  destruct e as [f d now | now now_end later | now later | now later];
    cbn [step].
  - destruct f; reflexivity.
  - unfold _monitor_silence, rearm.
    destruct (loop_task w); cbn; try reflexivity.
    destruct (unanswered_count w >=? max_prompts w); reflexivity.
  - reflexivity.
  - unfold cleanup.
    destruct (negb (Py.truthy (call_end_time (stats w)))); reflexivity.
Qed.

(** X9: pass-through holds in every interleaving: the frames the watcher
    pushes, other than [EndTaskFrame], are exactly the frames it received,
    other than [EndTaskFrame], each once, in arrival order and in its
    direction, whatever the loop task, [terminate_call] and [cleanup] do in
    between. *)
Theorem frames_pass_through_any_interleaving
        (w : SilenceWatcher) (es : list Event) :
  filter is_forward (snd (run w es)) = flat_map forwards_of es.
Proof.
  revert w; induction es as [|e es IH]; intros w; cbn [run flat_map].
  - reflexivity.
  - pose proof (step_forwards w e) as Hs.
    destruct (step w e) as [w1 o1]; cbn [snd] in Hs.
    specialize (IH w1).
    destruct (run w1 es) as [w2 o2]; cbn [snd] in *.
    now rewrite filter_app, Hs, IH.
Qed.

End WatcherInvariants.

(** ** Silence windows, one after the other *)

Section Escalation.

Import Upd CallStatsOps Watcher.

Lemma tick_below_threshold
      (w : SilenceWatcher) (last now now_rearm now_end later : Q) :
  last_bot_spoke_time w = Some last ->
  (now - last <= threshold_secs w)%Q ->
  tick w now now_rearm now_end later = (loop_head w, []).
Proof.
  intros Hl Hle. apply Qle_bool_iff in Hle.
  assert (E : check_silence w now = loop_head w).
  { unfold check_silence. rewrite Hl. unfold Py.gt. rewrite Hle. cbn.
    destruct (awaiting_response w && negb (Qeq_bool last 0)); reflexivity. }
  unfold tick. rewrite E.
  unfold loop_head. destruct (monitoring_active w); reflexivity.
Qed.

(** X10: after the bot stopped speaking at time [t], the ticks whose clock
    is at most [t] plus the threshold (the boundary included) do nothing:
    no prompt, no effect, the counters unchanged, and the timer still armed
    from [t]. *)
Theorem no_prompt_within_threshold
        (w : SilenceWatcher) (d : FrameDirection) (t : Q)
        (ts : list (Q * Q * Q * Q)) :
  let w1 := fst (process_frame w BotStoppedSpeakingFrame d t) in
  Forall (fun x => (tick_clock x - t <= threshold_secs w)%Q) ts ->
  snd (ticks w1 ts) = [] /\
  stats (fst (ticks w1 ts)) = stats w1 /\
  unanswered_count (fst (ticks w1 ts)) = unanswered_count w /\
  awaiting_response (fst (ticks w1 ts)) = true /\
  last_bot_spoke_time (fst (ticks w1 ts)) = Some t.
Proof.
  cbv zeta.
  set (w1 := fst (process_frame w BotStoppedSpeakingFrame d t)).
  assert (G : forall ts v,
             Forall (fun x => (tick_clock x - t <= threshold_secs v)%Q) ts ->
             last_bot_spoke_time v = Some t ->
             snd (ticks v ts) = [] /\
             stats (fst (ticks v ts)) = stats v /\
             unanswered_count (fst (ticks v ts)) = unanswered_count v /\
             awaiting_response (fst (ticks v ts)) = awaiting_response v /\
             last_bot_spoke_time (fst (ticks v ts)) = Some t).
  { clear. intros ts.
    induction ts as [|[[[t1 t2] t3] t4] ts IH]; intros v Hf Hl; cbn [ticks].
    - cbn. auto.
    - inversion Hf as [|x xs Hx Hxs]; subst. cbn in Hx.
      rewrite (tick_below_threshold v t t1 t2 t3 t4 Hl Hx).
      destruct (IH (loop_head v)) as (A & B & C & D & E).
      { unfold loop_head. destruct (monitoring_active v); exact Hxs. }
      { now rewrite loop_head_last. }
      destruct (ticks (loop_head v) ts) as [v2 o2]; cbn [fst snd] in *.
      rewrite A, B, C, D, E.
      rewrite loop_head_stats, loop_head_unanswered, loop_head_awaiting.
      auto. }
  intros Hf. destruct (G ts w1 Hf eq_refl) as (A & B & C & D & E).
  auto.
Qed.

Lemma no_prompt_within_threshold_witness :
  snd (ticks armed [(1005, 1005, 1005, 1005); (1010, 1010, 1010, 1010)]%Q)
  = [] /\
  stats (fst (ticks armed [(1005, 1005, 1005, 1005);
                           (1010, 1010, 1010, 1010)]%Q)) = stats armed /\
  unanswered_count
    (fst (ticks armed [(1005, 1005, 1005, 1005);
                       (1010, 1010, 1010, 1010)]%Q))
  = unanswered_count fresh /\
  awaiting_response
    (fst (ticks armed [(1005, 1005, 1005, 1005);
                       (1010, 1010, 1010, 1010)]%Q)) = true /\
  last_bot_spoke_time
    (fst (ticks armed [(1005, 1005, 1005, 1005);
                       (1010, 1010, 1010, 1010)]%Q)) = Some 1000%Q.
Proof.
  apply (no_prompt_within_threshold fresh DOWNSTREAM 1000).
  repeat constructor; unfold Qle; cbn; lia.
Defined.

(** A tick that detects silence, as three resumptions of the loop task. *)
Lemma firing_tick
      (w : SilenceWatcher) (last now now_rearm now_end later : Q) :
  loop_task w = AtSleep1 ->
  awaiting_response w = true ->
  last_bot_spoke_time w = Some last ->
  ~ (last == 0)%Q ->
  (threshold_secs w < now - last)%Q ->
  run w (tick_events (now, now_rearm, now_end, later)) =
  if unanswered_count w + 1 >=? max_prompts w
  then
    (set_loop_task AtEndTask
       (fst (terminate_call (prompted w now_rearm) now_end later)),
     prompt_effect w
       :: snd (terminate_call (prompted w now_rearm) now_end later))
  else (loop_head (prompted w now_rearm), [prompt_effect w]).
Proof.
  intros Hl Ha Hs Hz Hlt.
  pose proof (tick_as_run w now now_rearm now_end later Hl) as T.
  pose proof (check_silence_fires w last now Ha Hs Hz Hlt) as C.
  rewrite C in T. cbn [loop_task set_loop_task] in T.
  unfold tick_events. rewrite <- T.
  unfold tick. rewrite C. cbn [loop_task set_loop_task].
  unfold dispatch_prompt, rearm. cbn.
  destruct (unanswered_count w + 1 >=? max_prompts w); reflexivity.
Qed.

Lemma escalation_from
      (ts : list (Q * Q * Q * Q)) (w : SilenceWatcher) (last : Q) :
  loop_task w = AtSleep1 ->
  monitoring_active w = true ->
  awaiting_response w = true ->
  last_bot_spoke_time w = Some last ->
  ~ (last == 0)%Q ->
  silent_windows (threshold_secs w) last ts ->
  ts <> [] ->
  unanswered_count w + Z.of_nat (List.length ts) = max_prompts w ->
  let r := run w (flat_map tick_events ts) in
  (exists summary,
      snd r = repeat (prompt_effect w) (List.length ts) ++
              [ LoggerInfoSummary summary;
                SetCallTerminated;
                PushFrame EndTaskFrame UPSTREAM ]) /\
  unanswered_count (fst r) = max_prompts w /\
  prompts_sent (stats (fst r))
  = prompts_sent (stats w) + Z.of_nat (List.length ts) /\
  silence_events (stats (fst r))
  = silence_events (stats w) + Z.of_nat (List.length ts) /\
  monitoring_active (fst r) = false /\
  loop_task (fst r) = AtEndTask /\
  (exists t, call_end_time (stats (fst r)) = Some t).
Proof.
  revert w last.
  induction ts as [|[[[now nr] ne] lt] ts IH];
    intros w last Hl Hm Ha Hs Hz Hw Hne Hlen; [congruence|].
  cbv zeta. destruct Hw as (Hlt & Hnr & Hw').
  cbn [flat_map]. rewrite run_app.
  rewrite (firing_tick w last now nr ne lt Hl Ha Hs Hz Hlt).
  destruct ts as [|y ts'].
  - (* the last window: the count reaches the maximum *)
    cbn [List.length] in Hlen.
    replace (unanswered_count w + 1 >=? max_prompts w) with true
      by (symmetry; apply Z.geb_le; lia).
    cbn. rewrite ?app_nil_r. repeat split; try lia; eauto.
  - (* more windows to come *)
    replace (unanswered_count w + 1 >=? max_prompts w) with false
      by (symmetry; rewrite Z.geb_leb; apply Z.leb_gt;
          cbn [List.length] in Hlen; lia).
    assert (Hh : loop_head (prompted w nr)
                 = set_loop_task AtSleep1 (prompted w nr))
      by (unfold loop_head; cbn; now rewrite Hm).
    rewrite Hh.
    specialize (IH (set_loop_task AtSleep1 (prompted w nr)) nr).
    cbv zeta in IH.
    destruct IH as ((summary & O) & U & P & S & M & L & E);
      try reflexivity; try assumption; try discriminate.
    { cbn. cbn [List.length] in Hlen |- *. lia. }
    destruct (run (set_loop_task AtSleep1 (prompted w nr))
                  (flat_map tick_events (y :: ts'))) as [w2 o2].
    cbn [fst snd] in *. cbn in U, P, S.
    repeat split; auto.
    + exists summary. rewrite O. reflexivity.
    + cbn [List.length]. lia.
    + cbn [List.length]. lia.
Qed.

Lemma silent_after_end_task (w : SilenceWatcher) (ms : list (Q * Q * Q)) :
  loop_task w = AtEndTask ->
  monitoring_active w = false ->
  snd (run w (map monitor_event ms)) = [].
Proof.
  intros Hl Hm.
  destruct ms as [|[[a b] c] ms]; [reflexivity|].
  cbn [map run monitor_event step].
  assert (E : _monitor_silence w a b c = (set_loop_task Finished w, []))
    by (unfold _monitor_silence, loop_head; now rewrite Hl, Hm).
  rewrite E. clear E.
  assert (G : forall v, loop_task v = Finished ->
                        run v (map monitor_event ms) = (v, [])).
  { clear. induction ms as [|[[a b] c] ms IH]; intros v Hv;
      cbn [map run monitor_event step]; [reflexivity|].
    unfold _monitor_silence. rewrite Hv, (IH v Hv). reflexivity. }
  rewrite G; reflexivity.
Qed.

(** X11: escalation.  The loop task is asleep, the watcher awaits a
    response since a non-zero time and no prompt is unanswered yet.  If
    [max_prompts] (at least 1) silence windows follow one another, each
    longer than the threshold counted from the previous re-arm, and nothing
    else happens in between, then the watcher sends exactly [max_prompts]
    prompts, runs the termination sequence once, right after the last
    prompt, and the loop task ends without emitting anything more. *)
Theorem escalation_ends_the_call
        (w : SilenceWatcher) (last : Q) (ts : list (Q * Q * Q * Q)) :
  loop_task w = AtSleep1 ->
  monitoring_active w = true ->
  awaiting_response w = true ->
  last_bot_spoke_time w = Some last ->
  ~ (last == 0)%Q ->
  unanswered_count w = 0 ->
  0 < max_prompts w ->
  Z.of_nat (List.length ts) = max_prompts w ->
  silent_windows (threshold_secs w) last ts ->
  call_ended_after w (List.length ts) (run w (flat_map tick_events ts)).
Proof.
  intros Hl Hm Ha Hs Hz Hu Hpos Hlen Hw.
  assert (Hne : ts <> []) by (intros ->; cbn in Hlen; lia).
  destruct (escalation_from ts w last Hl Hm Ha Hs Hz Hw Hne)
    as (O & U & P & S & M & L & E); [lia|].
  unfold call_ended_after. repeat split; auto.
  intros ms. now apply silent_after_end_task.
Qed.

Lemma escalation_ends_the_call_witness :
  call_ended_after listening 3
                   (run listening (flat_map tick_events three_windows)).
Proof.
  apply (escalation_ends_the_call listening 1000 three_windows);
    try reflexivity.
  - unfold Qeq; cbn; lia.
  - cbn. repeat split; unfold Qlt, Qeq; cbn; lia.
Defined.

End Escalation.

(** ** Interleavings around a tick *)

Section Interleavings.

Import Upd CallStatsOps Watcher.

(** X15: a direct call of [terminate_call] does not stop a tick that is
    already asleep: the loop condition is read at the loop head only, so
    when the loop task wakes and finds the threshold exceeded it still
    counts and sends one more prompt, although [monitoring_active] is
    false; after that prompt the loop task is at its end. *)
Theorem sleeping_tick_survives_terminate_call
        (w : SilenceWatcher)
        (last t later now now_rearm now_end later' : Q) :
  loop_task w = AtSleep1 ->
  awaiting_response w = true ->
  last_bot_spoke_time w = Some last ->
  ~ (last == 0)%Q ->
  (threshold_secs w < now - last)%Q ->
  let w1 := fst (terminate_call w t later) in
  let r := run w1 (tick_events (now, now_rearm, now_end, later')) in
  monitoring_active w1 = false /\
  (exists rest, snd r = prompt_effect w :: rest) /\
  prompts_sent (stats (fst r)) = prompts_sent (stats w) + 1 /\
  (loop_task (fst r) = Finished \/ loop_task (fst r) = AtEndTask).
Proof.
  intros Hl Ha Hs Hz Hlt. cbv zeta.
  split; [reflexivity|].
  rewrite (firing_tick (fst (terminate_call w t later)) last
                       now now_rearm now_end later'); auto.
  cbn.
  destruct (unanswered_count w + 1 >=? max_prompts w); cbn; eauto.
Qed.

Lemma sleeping_tick_survives_terminate_call_witness :
  let w1 := fst (terminate_call listening 1005 1005) in
  let r := run w1 (tick_events (1011, 1013, 1013, 1013)%Q) in
  monitoring_active w1 = false /\
  (exists rest, snd r = prompt_effect listening :: rest) /\
  prompts_sent (stats (fst r)) = prompts_sent (stats listening) + 1 /\
  (loop_task (fst r) = Finished \/ loop_task (fst r) = AtEndTask).
Proof.
  apply (sleeping_tick_survives_terminate_call
           listening 1000 1005 1005 1011 1013 1013 1013);
    try reflexivity.
  unfold Qeq; cbn; lia.
Defined.

(** X16: a [UserStartedSpeakingFrame] that arrives while a prompt is under
    way (during the pacing delay, or while the TTS call is pending) resets
    [unanswered_count], but the re-arm that follows sets
    [awaiting_response] back to true and restarts the timer: the watcher
    waits for a response again although the user has just spoken. *)
Theorem user_speech_during_prompt_is_rearmed
        (w : SilenceWatcher) (d : FrameDirection)
        (t a b c now_rearm now_end later : Q) :
  0 < max_prompts w ->
  (loop_task w = AtSleep2 ->
   let r := run w [ EvFrame UserStartedSpeakingFrame d t;
                    EvMonitor a b c;
                    EvMonitor now_rearm now_end later ] in
   awaiting_response (fst r) = true /\
   last_bot_spoke_time (fst r) = Some now_rearm /\
   unanswered_count (fst r) = 0 /\
   snd r = [PushFrame UserStartedSpeakingFrame d; prompt_effect w]) /\
  (loop_task w = AtTts ->
   let r := run w [ EvFrame UserStartedSpeakingFrame d t;
                    EvMonitor now_rearm now_end later ] in
   awaiting_response (fst r) = true /\
   last_bot_spoke_time (fst r) = Some now_rearm /\
   unanswered_count (fst r) = 0 /\
   snd r = [PushFrame UserStartedSpeakingFrame d]).
Proof.
  intros Hmax.
  assert (G : (0 >=? max_prompts w) = false)
    by (rewrite Z.geb_leb; apply Z.leb_gt; lia).
  split; intros Hl; cbv zeta; cbn [run step process_frame];
    unfold _monitor_silence; cbn; rewrite Hl; cbn;
    unfold rearm; cbn; rewrite G; cbn;
    rewrite loop_head_awaiting, loop_head_last, loop_head_unanswered;
    repeat split.
Qed.

Lemma user_speech_during_prompt_is_rearmed_witness :
  let w := fst (run listening [EvMonitor 1011 1011 1011]) in
  let r := run w [ EvFrame UserStartedSpeakingFrame UPSTREAM 1012;
                   EvMonitor 1013 1013 1013;
                   EvMonitor 1014 1014 1014 ] in
  awaiting_response (fst r) = true /\
  last_bot_spoke_time (fst r) = Some 1014%Q /\
  unanswered_count (fst r) = 0 /\
  snd r = [PushFrame UserStartedSpeakingFrame UPSTREAM; prompt_effect w].
Proof.
  refine (proj1 (user_speech_during_prompt_is_rearmed
                   (fst (run listening [EvMonitor 1011 1011 1011]))
                   UPSTREAM 1012 1013 1013 1013 1014 1014 1014 _) _);
    reflexivity.
Defined.





End Interleavings.

(** ** Rendering: what the texts determine *)

Section RenderingFacts.

Import Upd CallStatsOps.
Local Open Scope string_scope.

Lemma lacks_app (c : ascii) (a b : string) :
  lacks c (a ++ b) = lacks c a && lacks c b.
Proof.
  induction a as [|x a IH]; cbn; [reflexivity|].
  now rewrite IH, andb_assoc.
Qed.

Lemma lacks_colon_uint (d : Decimal.uint) :
  lacks ":" (NilEmpty.string_of_uint d) = true.
Proof. induction d; cbn; auto. Qed.

Lemma lacks_colon_str_int (n : Z) : lacks ":" (Py.str_int n) = true.
Proof.
  unfold Py.str_int, NilZero.string_of_int.
  destruct (Z.to_int n) as [d|d];
    unfold NilZero.string_of_uint; destruct d; cbn;
    auto using lacks_colon_uint.
Qed.

(** Two texts that agree, each cut at its first colon, agree on both
    sides of it. *)
Lemma app_colon_inj (a a' b b' : string) :
  lacks ":" a = true ->
  lacks ":" a' = true ->
  a ++ ":" ++ b = a' ++ ":" ++ b' ->
  a = a' /\ b = b'.
Proof.
  revert a'. induction a as [|x a IH]; intros [|x' a'] Ha Ha' E; cbn in *.
  - injection E as ->. auto.
  - injection E as <- _. cbn in Ha'. discriminate Ha'.
  - injection E as -> _. cbn in Ha. discriminate Ha.
  - injection E as -> E.
    apply andb_true_iff in Ha, Ha'.
    destruct (IH a' (proj2 Ha) (proj2 Ha') E) as [-> ->]. auto.
Qed.

(** [str] of an integer determines the integer. *)
Lemma str_int_inj (m n : Z) : Py.str_int m = Py.str_int n -> m = n.
Proof.
  unfold Py.str_int. intros E.
  assert (P : forall z,
             NilZero.int_of_string (NilZero.string_of_int (Z.to_int z))
             = Some (Z.to_int z)).
  { intros z. apply NilZero.isi; destruct z; cbn; try discriminate;
      intros [= H]; now apply (Unsigned.to_uint_nonnil p). }
  apply to_int_inj.
  pose proof (P m) as Pm. rewrite E, P in Pm. now injection Pm.
Qed.

Lemma two_digits_inj_nat (j k : nat) :
  (j < 60)%nat -> (k < 60)%nat ->
  two_digits (Z.of_nat j) = two_digits (Z.of_nat k) -> j = k.
Proof.
  intros Hj Hk E.
  assert (D : forall i, (i < 60)%nat ->
                        two_digits (Z.of_nat i)
                        = String (ascii_of_nat (48 + i / 10))
                                 (String (ascii_of_nat (48 + i mod 10))
                                         EmptyString)).
  { intros i Hi. unfold two_digits, digit.
    change 10%Z with (Z.of_nat 10).
    rewrite <- (Nat2Z.inj_div i 10), <- (Nat2Z.inj_mod i 10), !Nat2Z.id.
    reflexivity. }
  rewrite (D j Hj), (D k Hk) in E. clear D.
  assert (Q1 : (j / 10 < 10)%nat) by (apply Nat.Div0.div_lt_upper_bound; lia).
  assert (Q2 : (k / 10 < 10)%nat) by (apply Nat.Div0.div_lt_upper_bound; lia).
  pose proof (Nat.mod_upper_bound j 10 ltac:(lia)) as R1.
  pose proof (Nat.mod_upper_bound k 10 ltac:(lia)) as R2.
  pose proof (Nat.div_mod_eq j 10) as Dj.
  pose proof (Nat.div_mod_eq k 10) as Dk.
  remember (j / 10)%nat as qj. remember (j mod 10)%nat as rj.
  remember (k / 10)%nat as qk. remember (k mod 10)%nat as rk.
  assert (E1 : ascii_of_nat (48 + qj) = ascii_of_nat (48 + qk))
    by congruence.
  assert (E2 : ascii_of_nat (48 + rj) = ascii_of_nat (48 + rk))
    by congruence.
  apply (f_equal nat_of_ascii) in E1, E2.
  rewrite !nat_ascii_embedding in E1 by lia.
  rewrite !nat_ascii_embedding in E2 by lia.
  lia.
Qed.

Lemma two_digits_inj (q r : Z) :
  (0 <= q < 60)%Z -> (0 <= r < 60)%Z ->
  two_digits q = two_digits r -> q = r.
Proof.
  intros Hq Hr E.
  rewrite <- (Z2Nat.id q), <- (Z2Nat.id r) in E by lia.
  apply two_digits_inj_nat in E; lia.
Qed.

(** The rendering of a duration, whatever its sign. *)
Lemma format_duration_any (s : CallStats) (now : Q) :
  format_duration s now
  = Py.str_int (Py.int_of (duration_seconds s now) / 60) ++ ":" ++
    two_digits (Py.int_of (duration_seconds s now) mod 60).
Proof.
  unfold format_duration, Py.divmod.
  rewrite format_0d_two_digits; [reflexivity|].
  apply Z.mod_pos_bound. lia.
Qed.

(** X12: [format_duration] renders the whole seconds [n] of any duration,
    negative ones included, as the floor of [n / 60], a colon and
    [n mod 60] on two digits; and it loses nothing of [n]: two durations
    with the same rendering have the same number of whole seconds. *)
Theorem format_duration_injective
        (s1 s2 : CallStats) (now1 now2 : Q) :
  format_duration s1 now1
  = Py.str_int (Py.int_of (duration_seconds s1 now1) / 60) ++ ":" ++
    two_digits (Py.int_of (duration_seconds s1 now1) mod 60) /\
  (format_duration s1 now1 = format_duration s2 now2 ->
   Py.int_of (duration_seconds s1 now1)
   = Py.int_of (duration_seconds s2 now2)).
Proof.
  split; [apply format_duration_any|].
  rewrite !format_duration_any.
  set (n1 := Py.int_of (duration_seconds s1 now1)).
  set (n2 := Py.int_of (duration_seconds s2 now2)).
  intros E.
  apply app_colon_inj in E; try apply lacks_colon_str_int.
  destruct E as [Em Er].
  apply str_int_inj in Em.
  apply two_digits_inj in Er; try (apply Z.mod_pos_bound; lia).
  rewrite (Z.div_mod n1 60), (Z.div_mod n2 60) by lia.
  now rewrite Em, Er.
Qed.

Lemma format_duration_injective_witness :
  Py.int_of (duration_seconds example_stats 0)
  = Py.int_of (duration_seconds example_stats_later 5).
Proof.
  refine (proj2 (format_duration_injective
                   example_stats example_stats_later 0 5) _).
  reflexivity.
Defined.

Lemma lines_generate_summary (s : CallStats) (now : Q) :
  lines (generate_summary s now)
  = [ "=== CALL SUMMARY ===";
      "Duration: " ++ format_duration s now;
      "Silence events: " ++ Py.str_int (silence_events s);
      "Prompts sent: " ++ Py.str_int (prompts_sent s);
      "User speech events: " ++ Py.str_int (user_speech_events s);
      "Bot speech events: " ++ Py.str_int (bot_speech_events s) ].
Proof.
  unfold generate_summary. rewrite lines_join.
  - reflexivity.
  - discriminate.
  - cbn [forallb].
    rewrite !one_line_app, one_line_format_duration, !one_line_str_int.
    reflexivity.
Qed.

(** X13: the call summary determines what it reports: two summaries that
    are the same text come from the same four counters and the same number
    of whole seconds. *)
Theorem generate_summary_injective
        (s1 s2 : CallStats) (now1 now2 : Q) :
  generate_summary s1 now1 = generate_summary s2 now2 ->
  Py.int_of (duration_seconds s1 now1)
  = Py.int_of (duration_seconds s2 now2) /\
  silence_events s1 = silence_events s2 /\
  prompts_sent s1 = prompts_sent s2 /\
  user_speech_events s1 = user_speech_events s2 /\
  bot_speech_events s1 = bot_speech_events s2.
Proof.
  intros E. apply (f_equal lines) in E.
  rewrite !lines_generate_summary in E.
  injection E as Ed Es Ep Eu Eb.
  apply str_int_inj in Es, Ep, Eu, Eb.
  repeat split; auto.
  rewrite !format_duration_any in Ed.
  apply app_colon_inj in Ed; try apply lacks_colon_str_int.
  destruct Ed as [Em Er].
  apply str_int_inj in Em.
  apply two_digits_inj in Er; try (apply Z.mod_pos_bound; lia).
  rewrite (Z.div_mod (Py.int_of (duration_seconds s1 now1)) 60),
    (Z.div_mod (Py.int_of (duration_seconds s2 now2)) 60) by lia.
  now rewrite Em, Er.
Qed.

Lemma generate_summary_injective_witness :
  Py.int_of (duration_seconds example_stats 0)
  = Py.int_of (duration_seconds example_stats_later 5) /\
  silence_events example_stats = silence_events example_stats_later /\
  prompts_sent example_stats = prompts_sent example_stats_later /\
  user_speech_events example_stats
  = user_speech_events example_stats_later /\
  bot_speech_events example_stats = bot_speech_events example_stats_later.
Proof.
  apply (generate_summary_injective example_stats example_stats_later 0 5).
  reflexivity.
Defined.

(** [int] is non-decreasing. *)
Lemma int_of_le (p q : Q) : (p <= q)%Q -> (Py.int_of p <= Py.int_of q)%Z.
Proof.
  intros H.
  assert (F : forall x : Q, (0 <= Qnum x)%Z -> Py.int_of x = Qfloor x).
  { intros [a d] Ha. unfold Py.int_of, Qfloor. cbn in *.
    apply Z.quot_div_nonneg; lia. }
  assert (C : forall x : Q, (Qnum x < 0)%Z -> Py.int_of x = Qceiling x).
  { intros [a d] Ha. unfold Py.int_of, Qceiling, Qfloor. cbn in *.
    rewrite <- (Z.opp_involutive a) at 1.
    rewrite Z.quot_opp_l by lia.
    rewrite Z.quot_div_nonneg by lia. reflexivity. }
  destruct (Z_lt_le_dec (Qnum p) 0) as [Hp | Hp];
    destruct (Z_lt_le_dec (Qnum q) 0) as [Hq | Hq].
  - rewrite (C p Hp), (C q Hq). now apply Qceiling_resp_le.
  - rewrite (C p Hp), (F q Hq).
    apply Z.le_trans with 0%Z.
    + change 0%Z with (Qceiling 0). apply Qceiling_resp_le.
      destruct p as [a d]. unfold Qle. cbn in *. lia.
    + change 0%Z with (Qfloor 0). apply Qfloor_resp_le.
      destruct q as [a d]. unfold Qle. cbn in *. lia.
  - exfalso. destruct p as [a d], q as [b e]. unfold Qle in H. cbn in *. nia.
  - rewrite (F p Hp), (F q Hq). now apply Qfloor_resp_le.
Qed.

(** X14: once the statistics are finalized (the end time is set and not
    zero) the duration, its rendering and the summary no longer depend on
    the clock; before that the duration is the clock minus the start time,
    and its whole seconds never go down when the clock advances. *)
Theorem duration_frozen_once_finalized
        (s : CallStats) (now1 now2 : Q) :
  (Py.truthy (call_end_time s) = true ->
   duration_seconds s now1 = duration_seconds s now2 /\
   format_duration s now1 = format_duration s now2 /\
   generate_summary s now1 = generate_summary s now2) /\
  (Py.truthy (call_end_time s) = false ->
   duration_seconds s now1 = (now1 - call_start_time s)%Q /\
   ((now1 <= now2)%Q ->
    (Py.int_of (duration_seconds s now1)
     <= Py.int_of (duration_seconds s now2))%Z)).
Proof.
  split; intros H.
  - assert (E : duration_seconds s now1 = duration_seconds s now2).
    { unfold duration_seconds.
      destruct (call_end_time s) as [e|]; [|discriminate H].
      now rewrite H. }
    unfold generate_summary, format_duration. rewrite E. auto.
  - assert (E : forall now,
               duration_seconds s now = (now - call_start_time s)%Q).
    { intros now. unfold duration_seconds.
      destruct (call_end_time s) as [e|]; [|reflexivity].
      now rewrite H. }
    split; [apply E|].
    intros Hle. apply int_of_le. rewrite !E.
    unfold Qminus. apply Qplus_le_compat; [exact Hle | apply Qle_refl].
Qed.

Lemma duration_frozen_once_finalized_witness :
  (duration_seconds example_stats 0 = duration_seconds example_stats 5 /\
   format_duration example_stats 0 = format_duration example_stats 5 /\
   generate_summary example_stats 0 = generate_summary example_stats 5) /\
  (Py.int_of (duration_seconds (CallStatsOps.__init__ 1000) 1001)
   <= Py.int_of (duration_seconds (CallStatsOps.__init__ 1000) 1065))%Z.
Proof.
  split.
  - apply (proj1 (duration_frozen_once_finalized example_stats 0 5)).
    reflexivity.
  - apply (proj2 (duration_frozen_once_finalized
                    (CallStatsOps.__init__ 1000) 1001 1065)).
    + reflexivity.
    + unfold Qle; cbn; lia.
Defined.

End RenderingFacts.
